(** * DhanHQ order-update feed: a shallow embedding of [dhanhq/orderupdate.py]

    The module under study is the class [OrderUpdate]: it opens one
    WebSocket connection, sends a login frame, and dispatches every
    decoded inbound frame either to a caller-supplied callback or to a
    default printed presentation.

    The embedding follows the Python text line by line.  Python values are
    a small inductive type, exceptions are data, and every effect the class
    performs (opening and closing the socket, sending, receiving, printing,
    calling the callback) is recorded as an event in a trace. *)

From Stdlib Require Import String Ascii List ZArith Bool Lia DecimalString.
Import ListNotations.
Local Open Scope string_scope.
Local Open Scope Z_scope.

(** ** Python values *)

(** The values [json.loads] can return and [json.dumps] can take:
    [None], [bool], [int], [float], [str], [list] and [dict] with string
    keys.  A [dict] keeps its insertion order, so it is an association
    list; a [float] is carried by its [repr], no arithmetic is done on it.
    A [str] is a sequence of code points below 256. *)
#[warnings="-register-all"]
Inductive value : Type :=
| VNone
| VBool (b : bool)
| VInt (n : Z)
| VFloat (repr : string)
| VStr (s : string)
| VList (xs : list value)
| VDict (kvs : list (string * value)).

Definition dict := list (string * value).

(** [d.get(k)] on a dict, as an option: the binding of [k] if there is one. *)
Fixpoint dict_lookup (k : string) (d : dict) : option value :=
  match d with
  | [] => None
  | (k', v) :: d' => if String.eqb k k' then Some v else dict_lookup k d'
  end.

(** [d.get(k, default)]. *)
Definition dict_get (k : string) (default : value) (d : dict) : value :=
  match dict_lookup k d with
  | Some v => v
  | None => default
  end.

(** [k in d] for a dict [d]. *)
Definition dict_contains (k : string) (d : dict) : bool :=
  match dict_lookup k d with
  | Some _ => true
  | None => false
  end.

(** [v == s] for a [str] literal [s]: only an equal [str] compares equal. *)
Definition eq_str (v : value) (s : string) : bool :=
  match v with
  | VStr s' => String.eqb s' s
  | _ => false
  end.

(** [sub in s] for two [str]: substring test. *)
Fixpoint str_contains (sub s : string) : bool :=
  if String.prefix sub s then true
  else match s with
       | EmptyString => false
       | String _ s' => str_contains sub s'
       end.

(** ** [json.dumps] with its default arguments *)

Definition dquote : ascii := ascii_of_N 34.
Definition backslash : ascii := ascii_of_N 92.

Definition hex_digit (n : N) : ascii :=
  ascii_of_N (if (n <? 10)%N then 48 + n else 87 + n)%N.

(** One character of [py_encode_basestring_ascii]: printable ASCII other
    than the quote and the backslash is kept, everything else is escaped. *)
Definition escape_char (c : ascii) : string :=
  let n := N_of_ascii c in
  if (n =? 34)%N then String backslash (String dquote EmptyString)
  else if (n =? 92)%N then String backslash (String backslash EmptyString)
  else if (n =? 10)%N then "\n"
  else if (n =? 13)%N then "\r"
  else if (n =? 9)%N then "\t"
  else if (n =? 8)%N then "\b"
  else if (n =? 12)%N then "\f"
  else if ((32 <=? n) && (n <=? 126))%N then String c EmptyString
  else "\u00" ++ String (hex_digit (n / 16)) (String (hex_digit (n mod 16)) EmptyString).

Fixpoint escape_chars (s : string) : string :=
  match s with
  | EmptyString => EmptyString
  | String c s' => escape_char c ++ escape_chars s'
  end.

Definition encode_str (s : string) : string :=
  String dquote (escape_chars s ++ String dquote EmptyString).

(** [str(n)] of an [int]. *)
Definition str_of_int (n : Z) : string := NilZero.string_of_int (Z.to_int n).

(** [", ".join(items)]. *)
Fixpoint join_comma (items : list string) : string :=
  match items with
  | [] => EmptyString
  | [x] => x
  | x :: rest => x ++ ", " ++ join_comma rest
  end.

(** [json.dumps(v)]: separators [", "] and [": "], [ensure_ascii=True],
    keys in insertion order. *)
Fixpoint json_dumps (v : value) : string :=
  match v with
  | VNone => "null"
  | VBool true => "true"
  | VBool false => "false"
  | VInt n => str_of_int n
  | VFloat r => r
  | VStr s => encode_str s
  | VList xs => "[" ++ join_comma (map json_dumps xs) ++ "]"
  | VDict kvs =>
      "{" ++ join_comma (map (fun kv => match kv with
                                        | (k, x) => encode_str k ++ ": " ++ json_dumps x
                                        end) kvs) ++ "}"
  end.

(** JSON texts are written with apostrophes where they have double
    quotes; [json_text] puts the double quotes back. *)
Fixpoint json_text (s : string) : string :=
  match s with
  | EmptyString => EmptyString
  | String c s' => String (if Ascii.eqb c "'"%char then dquote else c) (json_text s')
  end.

(** ** Exceptions, events and the effect monad *)

Local Open Scope list_scope.

(** What the WebSocket library can raise at a suspension point: a
    network-level failure ([OSError], [ConnectionClosedError], ...) or the
    cancellation of the task that awaits. *)
Inductive fault : Type :=
| NetworkFault (msg : string)
| Cancellation.

Inductive exn : Type :=
| TransportError (msg : string)
| CancelledError
| JSONDecodeError (doc : string)
| AttributeError (msg : string)
| TypeError (msg : string)
| KeyError (key : string)
| UserError (msg : string).

Definition exn_of_fault (f : fault) : exn :=
  match f with
  | NetworkFault msg => TransportError msg
  | Cancellation => CancelledError
  end.

(** [isinstance(e, Exception)]: [asyncio.CancelledError] derives from
    [BaseException] only. *)
Definition is_Exception (e : exn) : bool :=
  match e with
  | CancelledError => false
  | _ => true
  end.

Definition is_transport_failure (e : exn) : bool :=
  match e with
  | TransportError _ => true
  | _ => false
  end.

(** What the class prints.  The formatted text of an f-string is kept as
    its template and the values put in it. *)
Inductive observation : Type :=
| SentSubscribe (auth_message : value)
      (* f"Sent subscribe message: {auth_message}" *)
| StatusLine (status order_id data : value)
      (* f"Status: {status}, Order ID: {order_id}, Data: {data}" *)
| OrderUpdateReceived (data : value)
      (* f"Order Update received: {data}" *)
| UnknownMessage (order_update : value)
      (* f"Unknown message received: {order_update}" *)
| ErrorReport (e : exn).
      (* f"Error in connect_to_dhan_websocket: {e}" *)

Inductive event : Type :=
| EvOpen (url : string)          (* the connection is established *)
| EvSend (text : string)         (* one text frame handed to the transport *)
| EvRecv (text : string)         (* one text frame taken from the transport *)
| EvClose                        (* the connection is released *)
| EvPrint (o : observation)      (* print(...) *)
| EvInvoke (arg : value).        (* the callback is called with [arg] *)

Inductive outcome (A : Type) : Type :=
| Return (a : A)
| Raise (e : exn).
Arguments Return {A} a.
Arguments Raise {A} e.

(** A computation: the events it performed, in order, and how it ended. *)
Definition M (A : Type) : Type := (list event * outcome A)%type.

Definition ret {A} (a : A) : M A := ([], Return a).
Definition raise {A} (e : exn) : M A := ([], Raise e).
Definition emit (ev : event) : M unit := ([ev], Return tt).
Definition lift {A} (o : outcome A) : M A := ([], o).

Definition bind {A B} (m : M A) (k : A -> M B) : M B :=
  match m with
  | (t, Return a) => let (t', r) := k a in (t ++ t', r)
  | (t, Raise e) => (t, Raise e)
  end.

Declare Scope py_scope.
Delimit Scope py_scope with py.
Notation "x <- m ;; k" := (bind m (fun x => k))
  (at level 61, m at next level, right associativity) : py_scope.
Notation "m ;; k" := (bind m (fun _ => k))
  (at level 61, right associativity) : py_scope.
Local Open Scope py_scope.

(** [try: m  except Exception as e: h e]. *)
Definition try_except {A} (m : M A) (h : exn -> M A) : M A :=
  match m with
  | (t, Raise e) =>
      if is_Exception e then let (t', r) := h e in (t ++ t', r)
      else (t, Raise e)
  | (t, Return a) => (t, Return a)
  end.

(** [try: m  finally: c], where [c] does not raise. *)
Definition finally {A} (m : M A) (c : list event) : M A :=
  let (t, r) := m in (t ++ c, r).

Definition trace {A} (m : M A) : list event := fst m.
Definition result {A} (m : M A) : outcome A := snd m.

(** [print(...)]: the line is written; the console is taken to accept it. *)
Definition print (o : observation) : M unit := emit (EvPrint o).

(** ** Python operations the dispatcher uses *)

Definition type_name (v : value) : string :=
  match v with
  | VNone => "NoneType"
  | VBool _ => "bool"
  | VInt _ => "int"
  | VFloat _ => "float"
  | VStr _ => "str"
  | VList _ => "list"
  | VDict _ => "dict"
  end.

(** [v.get(k, default)]: only a dict has the method. *)
Definition py_get (v : value) (k : string) (default : value) : M value :=
  match v with
  | VDict d => ret (dict_get k default d)
  | _ => raise (AttributeError (type_name v))
  end.

(** [item in v] for a [str] item: key test on a dict, substring test on a
    [str], element test on a list, [TypeError] on anything else. *)
Definition py_contains (item : string) (v : value) : M bool :=
  match v with
  | VDict d => ret (dict_contains item d)
  | VStr s => ret (str_contains item s)
  | VList xs => ret (existsb (fun x => eq_str x item) xs)
  | _ => raise (TypeError (type_name v))
  end.

(** [v[k]] for a [str] key. *)
Definition py_getitem (v : value) (k : string) : M value :=
  match v with
  | VDict d => match dict_lookup k d with
               | Some x => ret x
               | None => raise (KeyError k)
               end
  | _ => raise (TypeError (type_name v))
  end.

(** ** The callback slot *)

(** What the attribute [on_update] can hold: [None]; a function (a [def],
    a [lambda] or a bound method), which takes the decoded frame and
    returns or raises; an instance of a class with [__call__], whose truth
    value is what its [__bool__] or [__len__] makes it; or any object that
    cannot be called, of which the dispatcher only ever looks at the truth
    value.  What a callback does is a function of the frame it is given. *)
Inductive slot : Type :=
| SNone
| SFunction (f : value -> outcome value)
| SCallable (truth : bool) (f : value -> outcome value)
| SOther (truth : bool).

(** [bool(s)]: [None] is false, a function is true, an object says. *)
Definition py_bool (s : slot) : bool :=
  match s with
  | SNone => false
  | SFunction _ => true
  | SCallable b _ => b
  | SOther b => b
  end.

Definition callable (s : slot) : bool :=
  match s with
  | SFunction _ | SCallable _ _ => true
  | _ => false
  end.

(** [s(arg)]. *)
Definition py_call (s : slot) (arg : value) : M value :=
  match s with
  | SFunction f | SCallable _ f => emit (EvInvoke arg) ;; lift (f arg)
  | _ => raise (TypeError "object is not callable")
  end.

(** ** The transport *)

(** One connection as the library presents it: whether [send] succeeds,
    the text frames the iteration yields, in order, and how the iteration
    ends after them: [None] when the server closed the connection
    normally, a fault otherwise. *)
Record websocket : Type := {
  ws_send_fault : option fault;
  ws_frames : list string;
  ws_end : option fault
}.

(** [websockets.connect(url)]: it fails, or yields a connection. *)
Definition network : Type := string -> fault + websocket.

(** [await websocket.send(text)]. *)
Definition ws_send (ws : websocket) (text : string) : M unit :=
  match ws_send_fault ws with
  | None => emit (EvSend text)
  | Some f => raise (exn_of_fault f)
  end.

(** [async with websockets.connect(url) as websocket: body]: when the
    connection is established the body runs and the connection is closed
    afterwards, however the body ends; the exception of the body, if any,
    goes on. *)
Definition async_with_connect {A} (net : network) (url : string)
    (body : websocket -> M A) : M A :=
  match net url with
  | inl f => raise (exn_of_fault f)
  | inr ws => emit (EvOpen url) ;; finally (body ws) [EvClose]
  end.

(** [async for message in websocket: body message]. *)
Fixpoint async_for (frames : list string) (stream_end : option fault)
    (body : string -> M unit) : M unit :=
  match frames with
  | [] => match stream_end with
          | None => ret tt
          | Some f => raise (exn_of_fault f)
          end
  | message :: rest =>
      emit (EvRecv message) ;; body message ;; async_for rest stream_end body
  end.

(** A coroutine object: the body of an [async def], not started.  Calling
    the [async def] only builds it; it runs when an event loop drives it. *)
Inductive coroutine (A : Type) : Type :=
| Coroutine (body : network -> M A).
Arguments Coroutine {A} body.

(** [asyncio.run(c)] / [loop.run_until_complete(c)] on the network [net]. *)
Definition run_until_complete {A} (net : network) (c : coroutine A) : M A :=
  match c with
  | Coroutine body => body net
  end.

(** [json.loads]: the decoder of the Python standard library, taken as
    given.  [None] stands for [json.JSONDecodeError]. *)
Class JsonDecoder : Type := {
  json_loads : string -> option value
}.

(** ** The class [OrderUpdate] *)

(** The object passed to the constructor. *)
Record DhanContext : Type := {
  get_client_id : string;
  get_access_token : string
}.

(** An instance.  [inst_on_update] is the entry of the instance dictionary
    for [on_update]: [None] as long as nothing was assigned to
    [self.on_update]. *)
Record OrderUpdate : Type := {
  client_id : string;
  access_token : string;
  order_feed_wss : string;
  inst_on_update : option slot
}.

(** The class attribute [on_update: Optional[Callable[[dict], None]] = None]. *)
Definition class_on_update : slot := SNone.

(** [self.on_update]: the instance entry, else the class attribute. *)
Definition on_update (self : OrderUpdate) : slot :=
  match inst_on_update self with
  | Some s => s
  | None => class_on_update
  end.

(** [self.on_update = s]. *)
Definition set_on_update (self : OrderUpdate) (s : slot) : OrderUpdate :=
  {| client_id := client_id self;
     access_token := access_token self;
     order_feed_wss := order_feed_wss self;
     inst_on_update := Some s |}.

(** [OrderUpdate(dhan_context)]. *)
Definition init (dhan_context : DhanContext) : OrderUpdate :=
  {| client_id := get_client_id dhan_context;
     access_token := get_access_token dhan_context;
     order_feed_wss := "wss://api-order-update.dhan.co";
     inst_on_update := None |}.

(** [str(s)] of a [str]. *)
Definition py_str (s : string) : string := s.

Definition auth_message (self : OrderUpdate) : value :=
  VDict [("LoginReq", VDict [("MsgCode", VInt 42);
                             ("ClientId", VStr (py_str (client_id self)));
                             ("Token", VStr (py_str (access_token self)))]);
         ("UserType", VStr "SELF")].

(** [handle_order_update(self, order_update)]. *)
Definition handle_order_update (self : OrderUpdate) (order_update : value)
    : M value :=
  ty <- py_get order_update "Type" VNone ;;
  if eq_str ty "order_alert" then
    if py_bool (on_update self) && callable (on_update self) then
      py_call (on_update self) order_update
    else
      data <- py_get order_update "Data" (VDict []) ;;
      has_order_no <- py_contains "orderNo" data ;;
      if has_order_no : bool then
        order_id <- py_getitem data "orderNo" ;;
        status <- py_get data "status" (VStr "Unknown status") ;;
        print (StatusLine status order_id data) ;;
        ret VNone
      else
        print (OrderUpdateReceived data) ;;
        ret VNone
  else
    print (UnknownMessage order_update) ;;
    ret VNone.

(** The two statements of the loop body: [data = json.loads(message)] and
    [self.handle_order_update(data)]. *)
Definition dispatch_frame {codec : JsonDecoder} (self : OrderUpdate)
    (message : string) : M unit :=
  data <- match json_loads message with
          | Some v => ret v
          | None => raise (JSONDecodeError message)
          end ;;
  handle_order_update self data ;;
  ret tt.

(** The body of [async def connect_order_update(self)]. *)
Definition connect_order_update_body {codec : JsonDecoder} (self : OrderUpdate)
    (net : network) : M value :=
  async_with_connect net (order_feed_wss self) (fun websocket =>
    let auth_message := auth_message self in
    ws_send websocket (json_dumps auth_message) ;;
    print (SentSubscribe auth_message) ;;
    async_for (ws_frames websocket) (ws_end websocket) (dispatch_frame self)) ;;
  ret VNone.

(** [self.connect_order_update()]: the call of an [async def] builds the
    coroutine object and runs nothing of its body. *)
Definition connect_order_update {codec : JsonDecoder} (self : OrderUpdate)
    : coroutine value :=
  Coroutine (connect_order_update_body self).

(** [connect_to_dhan_websocket_sync(self)]: the coroutine object that the
    [try] body returns, or Python's [None] after the [except] branch. *)
Definition connect_to_dhan_websocket_sync {codec : JsonDecoder} (self : OrderUpdate)
    : M (option (coroutine value)) :=
  try_except
    (ret (Some (connect_order_update self)))
    (fun e => print (ErrorReport e) ;; ret None).

(** ** A decoder for the examples *)

(** A recursive-descent decoder for the part of JSON the examples use:
    objects, arrays, strings with two-character escapes, integers and the
    three literals; it rejects every other text.  It instantiates
    [JsonDecoder] where a statement is evaluated on concrete frames; the
    theorems hold for any decoder. *)
Module MiniJson.

Local Open Scope char_scope.

Definition is_ws (c : ascii) : bool :=
  match c with
  | " " | "009" | "010" | "013" => true
  | _ => false
  end.

Fixpoint skip_ws (s : string) : string :=
  match s with
  | String c rest => if is_ws c then skip_ws rest else s
  | EmptyString => s
  end.

Definition is_digit (c : ascii) : bool :=
  let n := N_of_ascii c in ((48 <=? n) && (n <=? 57))%N.

(** Digits at the head of [s], accumulated in base ten. *)
Fixpoint parse_digits (acc : Z) (s : string) : Z * string :=
  match s with
  | String c rest =>
      if is_digit c
      then parse_digits (10 * acc + Z.of_N (N_of_ascii c) - 48) rest
      else (acc, s)
  | EmptyString => (acc, s)
  end.

Definition starts_number_tail (s : string) : bool :=
  match s with
  | String c _ => match c with "." | "e" | "E" => true | _ => false end
  | EmptyString => false
  end.

(** An integer without sign: digits, no leading zero before another
    digit, no fraction and no exponent after them. *)
Definition parse_nat (s : string) : option (Z * string) :=
  match s with
  | String "0" (String c _) =>
      if is_digit c then None
      else let (n, rest) := parse_digits 0 s in
           if starts_number_tail rest then None else Some (n, rest)
  | String c _ =>
      if is_digit c
      then let (n, rest) := parse_digits 0 s in
           if starts_number_tail rest then None else Some (n, rest)
      else None
  | EmptyString => None
  end.

Definition unescape (c : ascii) : option ascii :=
  match c with
  | "034" => Some "034"
  | "\" => Some "\"
  | "/" => Some "/"
  | "b" => Some "008"
  | "f" => Some "012"
  | "n" => Some "010"
  | "r" => Some "013"
  | "t" => Some "009"
  | _ => None
  end.

(** The characters after an opening quote, up to the closing one. *)
Fixpoint parse_string_body (s : string) : option (string * string) :=
  match s with
  | EmptyString => None
  | String c rest =>
      match c with
      | "034" => Some (EmptyString, rest)
      | "\" =>
          match rest with
          | String e rest' =>
              match unescape e, parse_string_body rest' with
              | Some x, Some (body, tail) => Some (String x body, tail)
              | _, _ => None
              end
          | EmptyString => None
          end
      | _ =>
          if (N_of_ascii c <? 32)%N then None
          else match parse_string_body rest with
               | Some (body, tail) => Some (String c body, tail)
               | None => None
               end
      end
  end.

Definition expect (word : string) (v : value) (s : string)
    : option (value * string) :=
  if String.prefix word s
  then Some (v, substring (String.length word) (String.length s - String.length word) s)
  else None.

(** [d[k] = v]: a key already there keeps its place. *)
Fixpoint dict_set (k : string) (v : value) (d : dict) : dict :=
  match d with
  | [] => [(k, v)]
  | (k', v') :: d' =>
      if String.eqb k k' then (k, v) :: d' else (k', v') :: dict_set k v d'
  end.

Fixpoint parse_value (fuel : nat) (s : string) : option (value * string) :=
  match fuel with
  | O => None
  | S fuel' =>
      match skip_ws s with
      | EmptyString => None
      | String c rest =>
          match c with
          | "n" => expect "ull" VNone rest
          | "t" => expect "rue" (VBool true) rest
          | "f" => expect "alse" (VBool false) rest
          | "034" =>
              match parse_string_body rest with
              | Some (body, tail) => Some (VStr body, tail)
              | None => None
              end
          | "-" =>
              match parse_nat rest with
              | Some (n, tail) => Some (VInt (- n), tail)
              | None => None
              end
          | "[" =>
              match skip_ws rest with
              | String "]" tail => Some (VList [], tail)
              | _ => match parse_items fuel' rest with
                     | Some (xs, tail) => Some (VList xs, tail)
                     | None => None
                     end
              end
          | "{" =>
              match skip_ws rest with
              | String "}" tail => Some (VDict [], tail)
              | _ => match parse_members fuel' [] rest with
                     | Some (d, tail) => Some (VDict d, tail)
                     | None => None
                     end
              end
          | _ =>
              match parse_nat (String c rest) with
              | Some (n, tail) => Some (VInt n, tail)
              | None => None
              end
          end
      end
  end

with parse_items (fuel : nat) (s : string) : option (list value * string) :=
  match fuel with
  | O => None
  | S fuel' =>
      match parse_value fuel' s with
      | Some (v, tail) =>
          match skip_ws tail with
          | String "," tail' =>
              match parse_items fuel' tail' with
              | Some (xs, tail'') => Some (v :: xs, tail'')
              | None => None
              end
          | String "]" tail' => Some ([v], tail')
          | _ => None
          end
      | None => None
      end
  end

with parse_members (fuel : nat) (acc : dict) (s : string)
    : option (dict * string) :=
  match fuel with
  | O => None
  | S fuel' =>
      match skip_ws s with
      | String "034" rest =>
          match parse_string_body rest with
          | Some (k, tail) =>
              match skip_ws tail with
              | String ":" tail' =>
                  match parse_value fuel' tail' with
                  | Some (v, tail'') =>
                      match skip_ws tail'' with
                      | String "," t => parse_members fuel' (dict_set k v acc) t
                      | String "}" t => Some (dict_set k v acc, t)
                      | _ => None
                      end
                  | None => None
                  end
              | _ => None
              end
          | None => None
          end
      | _ => None
      end
  end.

Definition loads (s : string) : option value :=
  match parse_value (S (String.length s)) s with
  | Some (v, tail) =>
      match skip_ws tail with
      | EmptyString => Some v
      | _ => None
      end
  | None => None
  end.

Definition decoder : JsonDecoder := {| json_loads := loads |}.

End MiniJson.

(** ** Named fragments and fixtures *)

(** Lines 73 to 79 of the source on their own: what [handle_order_update]
    does with an order alert once the callback test has failed. *)
Definition default_presentation (order_update : value) : M value :=
  data <- py_get order_update "Data" (VDict []) ;;
  has_order_no <- py_contains "orderNo" data ;;
  if has_order_no : bool then
    order_id <- py_getitem data "orderNo" ;;
    status <- py_get data "status" (VStr "Unknown status") ;;
    print (StatusLine status order_id data) ;;
    ret VNone
  else
    print (OrderUpdateReceived data) ;;
    ret VNone.

(** [order_update.get('Type') == 'order_alert'] on a dict. *)
Definition is_order_alert (d : dict) : Prop :=
  dict_lookup "Type" d = Some (VStr "order_alert").

(** A frame that is decoded and handled without an exception. *)
Definition handled {codec : JsonDecoder} (self : OrderUpdate) (message : string) : Prop :=
  exists u, result (dispatch_frame self message) = Return u.

(** What one turn of the loop adds to the trace. *)
Definition turn {codec : JsonDecoder} (self : OrderUpdate) (message : string) : list event :=
  EvRecv message :: trace (dispatch_frame self message).

(** Every event of [t] satisfies [p]. *)
Definition only (p : event -> bool) (t : list event) : Prop := forallb p t = true.

(** A [str] that [json.dumps] writes between the quotes as it is:
    printable ASCII without the quote and the backslash. *)
Definition plain_char (c : ascii) : bool :=
  let n := N_of_ascii c in
  ((32 <=? n) && (n <=? 126) && negb (n =? 34) && negb (n =? 92))%N.

Fixpoint plain (s : string) : bool :=
  match s with
  | EmptyString => true
  | String c s' => plain_char c && plain s'
  end.

Definition is_send (ev : event) : bool :=
  match ev with
  | EvSend _ => true
  | _ => false
  end.

Definition is_open_or_close (ev : event) : bool :=
  match ev with
  | EvOpen _ | EvClose => true
  | _ => false
  end.

Definition is_invoke (ev : event) : bool :=
  match ev with
  | EvInvoke _ => true
  | _ => false
  end.

Module Fixture.

Definition context : DhanContext :=
  {| get_client_id := "1100003626"; get_access_token := "eyJhbGc..." |}.

Definition client : OrderUpdate := init context.

Definition traded : string :=
  json_text "{'Type':'order_alert','Data':{'orderNo':'112111182045','status':'TRADED'}}".
Definition heartbeat : string := json_text "{'Type':'heartbeat'}".
Definition bare_alert : string := json_text "{'Type':'order_alert'}".
Definition truncated : string := json_text "{'Type':'order_alert','Data':".

Definition traded_data : dict :=
  [("orderNo", VStr "112111182045"); ("status", VStr "TRADED")].
Definition traded_frame : dict :=
  [("Type", VStr "order_alert"); ("Data", VDict traded_data)].

(** A callback that returns the order number of the frame it is given and
    raises on a frame without one. *)
Definition order_no_of (frame : value) : outcome value :=
  match frame with
  | VDict d =>
      match dict_lookup "Data" d with
      | Some (VDict data) =>
          match dict_lookup "orderNo" data with
          | Some n => Return n
          | None => Raise (KeyError "orderNo")
          end
      | _ => Raise (KeyError "Data")
      end
  | _ => Raise (UserError "not a dict")
  end.

(** A server that accepts the connection and the login frame and then
    delivers [frames] before the stream ends as [stream_end] says. *)
Definition serving (frames : list string) (stream_end : option fault) : network :=
  fun _ => inr {| ws_send_fault := None; ws_frames := frames; ws_end := stream_end |}.

(** A server that cannot be reached. *)
Definition refusing : network :=
  fun _ => inl (NetworkFault "connection refused").

End Fixture.

(** ** Measures on traces and shapes of frames *)

(** The texts of the frames read, in the order of reading. *)
Definition received (t : list event) : list string :=
  flat_map (fun ev => match ev with
                      | EvRecv text => [text]
                      | _ => []
                      end) t.

Definition is_open (ev : event) : bool :=
  match ev with
  | EvOpen _ => true
  | _ => false
  end.

Definition is_close (ev : event) : bool :=
  match ev with
  | EvClose => true
  | _ => false
  end.

Definition is_recv (ev : event) : bool :=
  match ev with
  | EvRecv _ => true
  | _ => false
  end.

(** The print of the [except] branch of [connect_to_dhan_websocket_sync]. *)
Definition is_error_report (ev : event) : bool :=
  match ev with
  | EvPrint (ErrorReport _) => true
  | _ => false
  end.

(** What [handle_order_update] can do: call the callback, or print one of
    its three lines. *)
Definition is_dispatch_event (ev : event) : bool :=
  match ev with
  | EvInvoke _ => true
  | EvPrint (StatusLine _ _ _) => true
  | EvPrint (OrderUpdateReceived _) => true
  | EvPrint (UnknownMessage _) => true
  | _ => false
  end.

(** [None], a [bool], an [int] or a [float]: a value that supports neither
    [in] nor subscripting. *)
Definition is_scalar (v : value) : bool :=
  match v with
  | VNone | VBool _ | VInt _ | VFloat _ => true
  | _ => false
  end.

(** Two callbacks that raise on the same frames, with the same exception;
    what they return may differ. *)
Definition same_faults (f g : value -> outcome value) : Prop :=
  forall v, match f v, g v with
            | Return _, Return _ => True
            | Raise e1, Raise e2 => e1 = e2
            | _, _ => False
            end.


Definition printable_char (c : ascii) : bool :=
  let n := N_of_ascii c in ((32 <=? n) && (n <=? 126))%N.

Fixpoint printable (s : string) : bool :=
  match s with
  | EmptyString => true
  | String c s' => printable_char c && printable s'
  end.

Example mini_loads_alert :
  MiniJson.loads (json_text "{'Type':'order_alert','Data':{'orderNo':'112111182045','status':'TRADED','qty': -3, 'tags': [1, null, true]}}")
  = Some (VDict [("Type", VStr "order_alert");
                 ("Data", VDict [("orderNo", VStr "112111182045");
                                 ("status", VStr "TRADED");
                                 ("qty", VInt (-3));
                                 ("tags", VList [VInt 1; VNone; VBool true])])]).
Proof. reflexivity. Qed.

Example mini_loads_malformed :
  MiniJson.loads (json_text "{'Type': 'order_alert'") = None /\ MiniJson.loads "oops" = None
  /\ MiniJson.loads (json_text "{'a': 1, 'b': 2, 'a': 3} ") = Some (VDict [("a", VInt 3); ("b", VInt 2)]).
Proof. repeat split; reflexivity. Qed.

(** * Properties *)

(** ** Dictionaries and the monad *)

Lemma dict_get_lookup k default d v :
  dict_lookup k d = Some v -> dict_get k default d = v.
Proof. unfold dict_get. now intros ->. Qed.

Lemma dict_get_absent k default d :
  dict_lookup k d = None -> dict_get k default d = default.
Proof. unfold dict_get. now intros ->. Qed.

Lemma eq_str_true v s : eq_str v s = true <-> v = VStr s.
Proof.
  destruct v; simpl; split; try discriminate.
  - intros E. apply String.eqb_eq in E. now subst.
  - intros E. injection E as ->. apply String.eqb_refl.
Qed.

Lemma order_alert_tag d :
  is_order_alert d -> eq_str (dict_get "Type" VNone d) "order_alert" = true.
Proof.
  intros E. rewrite (dict_get_lookup _ _ _ _ E). reflexivity.
Qed.

Lemma other_tag d :
  ~ is_order_alert d -> eq_str (dict_get "Type" VNone d) "order_alert" = false.
Proof.
  unfold is_order_alert, dict_get. intros N.
  destruct (dict_lookup "Type" d) as [v|]; [|reflexivity].
  destruct (eq_str v "order_alert") eqn:E; [|reflexivity].
  apply eq_str_true in E. subst. now elim N.
Qed.

Lemma bind_ret_l {A B} (a : A) (k : A -> M B) : bind (ret a) k = k a.
Proof. unfold bind, ret. now destruct (k a). Qed.

Lemma bind_raise_l {A B} e (k : A -> M B) : bind (raise e) k = raise e.
Proof. reflexivity. Qed.

Lemma bind_assoc {A B C} (m : M A) (k : A -> M B) (h : B -> M C) :
  bind (bind m k) h = bind m (fun a => bind (k a) h).
Proof.
  destruct m as [t [a|e]]; simpl; [|reflexivity].
  destruct (k a) as [t1 [b|e1]]; simpl; [|reflexivity].
  destruct (h b) as [t2 r]. now rewrite app_assoc.
Qed.

(** ** The dispatcher, one frame at a time *)

(** With no usable callback an order alert goes to the default
    presentation, and no callback is called. *)
Lemma alert_without_callback self d :
  is_order_alert d ->
  py_bool (on_update self) && callable (on_update self) = false ->
  handle_order_update self (VDict d) = default_presentation (VDict d).
Proof.
  intros T G. unfold handle_order_update, py_get.
  rewrite bind_ret_l, (order_alert_tag _ T), G. reflexivity.
Qed.

Lemma default_presentation_never_invokes order_update :
  forallb (fun ev => negb (is_invoke ev)) (trace (default_presentation order_update)) = true.
Proof.
  unfold default_presentation.
  destruct order_update; try reflexivity. simpl py_get. rewrite bind_ret_l.
  destruct (dict_get "Data" (VDict []) kvs) as [| | | | s |xs|data]; try reflexivity;
    simpl py_contains; rewrite bind_ret_l.
  - destruct (str_contains _ _); reflexivity.
  - destruct (existsb _ _); reflexivity.
  - unfold dict_contains, py_getitem.
    destruct (dict_lookup "orderNo" data); reflexivity.
Qed.

(** C2.  An order alert with a callback registered whose truth value is
    true, as it is for every function, lambda and bound method: the
    callback is called exactly once, with the whole decoded frame; the
    dispatcher ends the way the callback ends, with its return value;
    nothing is printed. *)
Theorem handler_receives_order_alert self d f :
  is_order_alert d ->
  on_update self = SFunction f \/ on_update self = SCallable true f ->
  trace (handle_order_update self (VDict d)) = [EvInvoke (VDict d)]
  /\ result (handle_order_update self (VDict d)) = f (VDict d).
Proof.
  intros T S. unfold handle_order_update, py_get.
  rewrite bind_ret_l, (order_alert_tag _ T).
  destruct S as [-> | ->]; simpl;
    destruct (f (VDict d)); split; reflexivity.
Qed.

Lemma handler_receives_order_alert_witness :
  let self := set_on_update Fixture.client (SFunction Fixture.order_no_of) in
  is_order_alert Fixture.traded_frame
  /\ (on_update self = SFunction Fixture.order_no_of
      \/ on_update self = SCallable true Fixture.order_no_of)
  /\ trace (handle_order_update self (VDict Fixture.traded_frame))
     = [EvInvoke (VDict Fixture.traded_frame)]
  /\ result (handle_order_update self (VDict Fixture.traded_frame))
     = Return (VStr "112111182045").
Proof.
  split; [reflexivity|]. split; [left; reflexivity|].
  apply (handler_receives_order_alert
           (set_on_update Fixture.client (SFunction Fixture.order_no_of))
           Fixture.traded_frame Fixture.order_no_of);
    [reflexivity | left; reflexivity].
Defined.

(** A callback object whose truth value is false does not pass the test
    [self.on_update and callable(self.on_update)]: it is registered and
    callable, and yet an order alert is printed by default and the
    callback is not called. *)
Lemma falsy_handler_is_skipped :
  let self := set_on_update Fixture.client
                (SCallable false Fixture.order_no_of) in
  is_order_alert Fixture.traded_frame
  /\ callable (on_update self) = true
  /\ handle_order_update self (VDict Fixture.traded_frame)
     = ([EvPrint (StatusLine (VStr "TRADED") (VStr "112111182045")
                             (VDict Fixture.traded_data))],
        Return VNone)
  /\ trace (handle_order_update self (VDict Fixture.traded_frame))
     <> [EvInvoke (VDict Fixture.traded_frame)].
Proof.
  split; [reflexivity|]. split; [reflexivity|]. split; [reflexivity|].
  discriminate.
Qed.

(** C4.  A frame whose [Type] is missing or is not ["order_alert"]: the
    one thing that happens is the "unknown message" print, carrying the
    decoded frame unchanged; the callback, whatever the slot holds, is not
    called. *)
Theorem unknown_type_reported_raw self d :
  ~ is_order_alert d ->
  handle_order_update self (VDict d)
  = ([EvPrint (UnknownMessage (VDict d))], Return VNone).
Proof.
  intros T. unfold handle_order_update, py_get.
  rewrite bind_ret_l, (other_tag _ T). reflexivity.
Qed.

Lemma unknown_type_reported_raw_witness :
  let self := set_on_update Fixture.client (SFunction Fixture.order_no_of) in
  ~ is_order_alert [("Type", VStr "heartbeat")]
  /\ handle_order_update self (VDict [("Type", VStr "heartbeat")])
     = ([EvPrint (UnknownMessage (VDict [("Type", VStr "heartbeat")]))], Return VNone).
Proof.
  assert (N : ~ is_order_alert [("Type", VStr "heartbeat")])
    by (unfold is_order_alert; simpl; discriminate).
  split; [exact N|].
  exact (unknown_type_reported_raw
           (set_on_update Fixture.client (SFunction Fixture.order_no_of))
           [("Type", VStr "heartbeat")] N).
Defined.

(** C5.  An order alert, no callback, and a [Data] mapping that has the
    key [orderNo]: one status line is printed, whose order identifier is
    [Data["orderNo"]], whose status is [Data["status"]] when that key is
    there and ["Unknown status"] otherwise, and which carries the whole
    [Data] mapping. *)
Theorem default_status_line self d data order_id :
  is_order_alert d ->
  on_update self = SNone ->
  dict_lookup "Data" d = Some (VDict data) ->
  dict_lookup "orderNo" data = Some order_id ->
  handle_order_update self (VDict d)
  = ([EvPrint (StatusLine
                 (match dict_lookup "status" data with
                  | Some status => status
                  | None => VStr "Unknown status"
                  end)
                 order_id
                 (VDict data))],
     Return VNone).
Proof.
  intros T S D O.
  rewrite alert_without_callback by (trivial; now rewrite S).
  unfold default_presentation, py_get.
  rewrite bind_ret_l, (dict_get_lookup _ _ _ _ D).
  unfold py_contains, dict_contains, py_getitem. rewrite O, !bind_ret_l.
  reflexivity.
Qed.

Lemma default_status_line_witness :
  is_order_alert Fixture.traded_frame
  /\ on_update Fixture.client = SNone
  /\ dict_lookup "Data" Fixture.traded_frame = Some (VDict Fixture.traded_data)
  /\ dict_lookup "orderNo" Fixture.traded_data = Some (VStr "112111182045")
  /\ handle_order_update Fixture.client (VDict Fixture.traded_frame)
     = ([EvPrint (StatusLine (VStr "TRADED") (VStr "112111182045")
                             (VDict Fixture.traded_data))],
        Return VNone).
Proof.
  repeat (split; [reflexivity|]).
  apply (default_status_line Fixture.client Fixture.traded_frame
           Fixture.traded_data (VStr "112111182045")); reflexivity.
Defined.

(** C9.  An order alert, no callback, and either no [Data] key at all or a
    [Data] mapping without the key [orderNo]: the dispatcher returns
    normally after one "order update received" print that carries the
    payload, which is the empty mapping when [Data] is missing. *)
Theorem missing_data_is_not_an_error self d :
  is_order_alert d ->
  on_update self = SNone ->
  (dict_lookup "Data" d = None
   \/ exists data, dict_lookup "Data" d = Some (VDict data)
                   /\ dict_lookup "orderNo" data = None) ->
  handle_order_update self (VDict d)
  = ([EvPrint (OrderUpdateReceived
                 (match dict_lookup "Data" d with
                  | Some data => data
                  | None => VDict []
                  end))],
     Return VNone).
Proof.
  intros T S D.
  rewrite alert_without_callback by (trivial; now rewrite S).
  unfold default_presentation, py_get. rewrite bind_ret_l.
  destruct D as [D | [data [D O]]]; rewrite D.
  - rewrite (dict_get_absent _ _ _ D). reflexivity.
  - rewrite (dict_get_lookup _ _ _ _ D).
    unfold py_contains, dict_contains. rewrite O, bind_ret_l. reflexivity.
Qed.

Lemma missing_data_is_not_an_error_witness :
  is_order_alert [("Type", VStr "order_alert")]
  /\ on_update Fixture.client = SNone
  /\ dict_lookup "Data" [("Type", VStr "order_alert")] = None
  /\ handle_order_update Fixture.client (VDict [("Type", VStr "order_alert")])
     = ([EvPrint (OrderUpdateReceived (VDict []))], Return VNone).
Proof.
  repeat (split; [reflexivity|]).
  apply (missing_data_is_not_an_error Fixture.client
           [("Type", VStr "order_alert")]); [reflexivity|reflexivity|].
  left. reflexivity.
Defined.

(** C10.  A new instance has [None] in [on_update].  With [None] there, or
    with anything that is not callable, an order alert is handled by the
    default presentation and nothing is called. *)
Theorem default_path_without_callable :
  (forall dhan_context, on_update (init dhan_context) = SNone)
  /\ (forall self d,
        is_order_alert d ->
        on_update self = SNone \/ callable (on_update self) = false ->
        handle_order_update self (VDict d) = default_presentation (VDict d)
        /\ forallb (fun ev => negb (is_invoke ev))
                   (trace (handle_order_update self (VDict d))) = true).
Proof.
  split; [reflexivity|].
  intros self d T G.
  assert (E : handle_order_update self (VDict d) = default_presentation (VDict d)).
  { apply alert_without_callback; [exact T|].
    destruct G as [-> | ->]; [reflexivity | apply andb_false_r]. }
  split; [exact E|]. rewrite E. apply default_presentation_never_invokes.
Qed.

Lemma default_path_without_callable_witness :
  let self := set_on_update Fixture.client (SOther true) in
  is_order_alert Fixture.traded_frame
  /\ (on_update self = SNone \/ callable (on_update self) = false)
  /\ handle_order_update self (VDict Fixture.traded_frame)
     = default_presentation (VDict Fixture.traded_frame)
  /\ forallb (fun ev => negb (is_invoke ev))
             (trace (handle_order_update self (VDict Fixture.traded_frame))) = true.
Proof.
  split; [reflexivity|]. split; [right; reflexivity|].
  apply (proj2 default_path_without_callable
           (set_on_update Fixture.client (SOther true)) Fixture.traded_frame);
    [reflexivity | right; reflexivity].
Defined.

(** ** Traces of composed computations *)

Lemma trace_bind {A B} (m : M A) (k : A -> M B) :
  trace (bind m k)
  = trace m ++ match result m with
               | Return a => trace (k a)
               | Raise _ => []
               end.
Proof.
  destruct m as [t [a|e]]; simpl.
  - now destruct (k a).
  - now rewrite app_nil_r.
Qed.

Lemma result_bind {A B} (m : M A) (k : A -> M B) :
  result (bind m k)
  = match result m with
    | Return a => result (k a)
    | Raise e => Raise e
    end.
Proof.
  destruct m as [t [a|e]]; simpl; [|reflexivity]. now destruct (k a).
Qed.

Lemma M_eta {A} (m : M A) : m = (trace m, result m).
Proof. now destruct m. Qed.

Section Quiet.
(** Traces whose events all satisfy [p] are closed under the monad
    operations. *)
Variable p : event -> bool.

Lemma only_bind {A B} (m : M A) (k : A -> M B) :
  only p (trace m) -> (forall a, only p (trace (k a))) -> only p (trace (bind m k)).
Proof.
  unfold only. intros Hm Hk. rewrite trace_bind, forallb_app, Hm.
  destruct (result m); [apply Hk | reflexivity].
Qed.

Lemma only_pure {A} (m : M A) : trace m = [] -> only p (trace m).
Proof. unfold only. now intros ->. Qed.

Hypothesis p_print : forall o, p (EvPrint o) = true.
Hypothesis p_invoke : forall arg, p (EvInvoke arg) = true.

Lemma only_py_get v k default : only p (trace (py_get v k default)).
Proof. destruct v; reflexivity. Qed.

Lemma only_py_contains item v : only p (trace (py_contains item v)).
Proof. destruct v; reflexivity. Qed.

Lemma only_py_getitem v k : only p (trace (py_getitem v k)).
Proof. destruct v; try reflexivity. simpl. now destruct (dict_lookup k kvs). Qed.

Lemma only_print o : only p (trace (print o)).
Proof. unfold only. simpl. now rewrite p_print. Qed.

Lemma only_py_call s arg : only p (trace (py_call s arg)).
Proof.
  destruct s; try reflexivity; unfold only; simpl;
    destruct (f arg); simpl; now rewrite p_invoke.
Qed.

Lemma only_handle self order_update :
  only p (trace (handle_order_update self order_update)).
Proof.
  unfold handle_order_update.
  apply only_bind; [apply only_py_get|]. intros ty.
  destruct (eq_str ty "order_alert").
  - destruct (py_bool (on_update self) && callable (on_update self)).
    + apply only_py_call.
    + apply only_bind; [apply only_py_get|]. intros data.
      apply only_bind; [apply only_py_contains|]. intros [|].
      * apply only_bind; [apply only_py_getitem|]. intros order_id.
        apply only_bind; [apply only_py_get|]. intros status.
        apply only_bind; [apply only_print|]. reflexivity.
      * apply only_bind; [apply only_print|]. reflexivity.
  - apply only_bind; [apply only_print|]. reflexivity.
Qed.

Lemma only_dispatch_frame {codec : JsonDecoder} self message :
  only p (trace (dispatch_frame self message)).
Proof.
  unfold dispatch_frame.
  apply only_bind; [now destruct (json_loads message)|]. intros data.
  apply only_bind; [apply only_handle|]. reflexivity.
Qed.

Hypothesis p_recv : forall text, p (EvRecv text) = true.

Lemma only_async_for frames stream_end body :
  (forall message, only p (trace (body message))) ->
  only p (trace (async_for frames stream_end body)).
Proof.
  intros Hb. induction frames as [|message rest IH]; cbn [async_for].
  - now destruct stream_end.
  - apply only_bind; [unfold only; simpl; now rewrite p_recv|]. intros _.
    apply only_bind; [apply Hb|]. intros _. exact IH.
Qed.
End Quiet.

(** ** The loop *)

Lemma async_for_handled {codec : JsonDecoder} self pre post stream_end :
  Forall (handled self) pre ->
  async_for (pre ++ post) stream_end (dispatch_frame self)
  = (flat_map (turn self) pre
       ++ trace (async_for post stream_end (dispatch_frame self)),
     result (async_for post stream_end (dispatch_frame self))).
Proof.
  induction 1 as [|message rest [u Hu] _ IH]; simpl.
  - apply M_eta.
  - rewrite IH. unfold turn, bind, emit.
    destruct (dispatch_frame self message) as [t r]. simpl in *. subst r.
    now rewrite <- !app_assoc.
Qed.

Lemma async_for_raises {codec : JsonDecoder} self message post stream_end e :
  result (dispatch_frame self message) = Raise e ->
  async_for (message :: post) stream_end (dispatch_frame self)
  = (turn self message, Raise e).
Proof.
  intros E. simpl. unfold turn, bind, emit.
  destruct (dispatch_frame self message) as [t r]. simpl in *. now subst r.
Qed.

(** The body of the coroutine once the connection is established. *)
Lemma body_connected {codec : JsonDecoder} self net ws :
  net (order_feed_wss self) = inr ws ->
  ws_send_fault ws = None ->
  let loop := async_for (ws_frames ws) (ws_end ws) (dispatch_frame self) in
  connect_order_update_body self net
  = (EvOpen (order_feed_wss self)
       :: EvSend (json_dumps (auth_message self))
       :: EvPrint (SentSubscribe (auth_message self))
       :: trace loop ++ [EvClose],
     match result loop with
     | Return _ => Return VNone
     | Raise e => Raise e
     end).
Proof.
  intros N S loop. unfold connect_order_update_body, async_with_connect, ws_send.
  rewrite N, S. fold loop. destruct loop as [t [[]|e]]; cbn;
    rewrite ?app_nil_r; reflexivity.
Qed.

Lemma body_refused {codec : JsonDecoder} self net f :
  net (order_feed_wss self) = inl f ->
  connect_order_update_body self net = ([], Raise (exn_of_fault f)).
Proof.
  intros N. unfold connect_order_update_body, async_with_connect.
  now rewrite N.
Qed.

Lemma body_send_fails {codec : JsonDecoder} self net ws f :
  net (order_feed_wss self) = inr ws ->
  ws_send_fault ws = Some f ->
  connect_order_update_body self net
  = ([EvOpen (order_feed_wss self); EvClose], Raise (exn_of_fault f)).
Proof.
  intros N S. unfold connect_order_update_body, async_with_connect, ws_send.
  now rewrite N, S.
Qed.

(** A call of [handle_order_update] that returns has done exactly one
    thing: one print, or one call of the callback. *)
Lemma handle_returns_after_one_event self order_update u :
  result (handle_order_update self order_update) = Return u ->
  exists o, trace (handle_order_update self order_update) = [o].
Proof.
  unfold handle_order_update.
  destruct order_update as [| | | | | |d]; try discriminate.
  simpl py_get. rewrite bind_ret_l.
  destruct (eq_str _ _); [|intros _; eexists; reflexivity].
  destruct (py_bool (on_update self) && callable (on_update self)).
  - destruct (on_update self) as [|f|t f|b]; try discriminate;
      simpl; destruct (f (VDict d)); intros _; eexists; reflexivity.
  - rewrite bind_ret_l.
    destruct (dict_get "Data" (VDict []) d) as [| | | |s|xs|data];
      try discriminate; simpl py_contains; rewrite bind_ret_l.
    + destruct (str_contains _ _); [discriminate|]. intros _; eexists; reflexivity.
    + destruct (existsb _ _); [discriminate|]. intros _; eexists; reflexivity.
    + unfold dict_contains, py_getitem.
      destruct (dict_lookup "orderNo" data); intros _; eexists; reflexivity.
Qed.

Lemma handled_one_event {codec : JsonDecoder} self message :
  handled self message ->
  exists o, dispatch_frame self message = ([o], Return tt).
Proof.
  intros [u Hu]. unfold dispatch_frame in *.
  destruct (json_loads message) as [data|]; [|discriminate].
  rewrite bind_ret_l in *. rewrite result_bind in Hu.
  destruct (result (handle_order_update self data)) as [v|e] eqn:R; [|discriminate].
  destruct (handle_returns_after_one_event _ _ _ R) as [o Ho].
  exists o. rewrite (M_eta (handle_order_update self data)), Ho, R. reflexivity.
Qed.

Lemma handled_frames_observations {codec : JsonDecoder} self frames :
  Forall (handled self) frames ->
  exists obs,
    Forall2 (fun message o => dispatch_frame self message = ([o], Return tt)) frames obs
    /\ flat_map (turn self) frames
       = flat_map (fun mo => [EvRecv (fst mo); snd mo]) (combine frames obs).
Proof.
  induction 1 as [|message rest Hm _ [obs [F E]]].
  - exists []. split; [constructor | reflexivity].
  - destruct (handled_one_event _ _ Hm) as [o Ho].
    exists (o :: obs). split; [now constructor|].
    cbn [flat_map combine fst snd]. rewrite <- E.
    unfold turn at 1. now rewrite Ho.
Qed.

(** ** The session *)

(** C3.  Whatever the credentials are, once the connection is established
    and takes the frame, the session sends exactly one frame, as the first
    thing it does on the connection and so before any inbound frame is
    read; the frame is [json.dumps] of the login dictionary, which holds
    the client identifier and the access token unchanged. *)
Theorem login_frame_sent_once_first {codec : JsonDecoder} self net ws :
  net (order_feed_wss self) = inr ws ->
  ws_send_fault ws = None ->
  exists rest,
    trace (connect_order_update_body self net)
    = EvOpen (order_feed_wss self)
        :: EvSend (json_dumps
                     (VDict [("LoginReq", VDict [("MsgCode", VInt 42);
                                                 ("ClientId", VStr (client_id self));
                                                 ("Token", VStr (access_token self))]);
                             ("UserType", VStr "SELF")]))
        :: rest
    /\ forallb (fun ev => negb (is_send ev)) rest = true.
Proof.
  intros N S. rewrite (body_connected _ _ _ N S). simpl trace.
  eexists. split; [reflexivity|].
  simpl. rewrite forallb_app. simpl. rewrite andb_true_r.
  apply (only_async_for (fun ev => negb (is_send ev))); try reflexivity.
  intros message. apply only_dispatch_frame; reflexivity.
Qed.

Lemma login_frame_sent_once_first_witness :
  let frames := [Fixture.traded; Fixture.heartbeat] in
  let ws := {| ws_send_fault := None; ws_frames := frames; ws_end := None |} in
  let self := Fixture.client in
  Fixture.serving frames None (order_feed_wss self) = inr ws
  /\ ws_send_fault ws = None
  /\ exists rest,
       trace (connect_order_update_body (codec := MiniJson.decoder) self
                (Fixture.serving frames None))
       = EvOpen "wss://api-order-update.dhan.co"
           :: EvSend (json_dumps
                        (VDict [("LoginReq", VDict [("MsgCode", VInt 42);
                                                    ("ClientId", VStr "1100003626");
                                                    ("Token", VStr "eyJhbGc...")]);
                                ("UserType", VStr "SELF")]))
           :: rest
       /\ forallb (fun ev => negb (is_send ev)) rest = true.
Proof.
  intros frames ws self.
  split; [reflexivity|]. split; [reflexivity|].
  exact (login_frame_sent_once_first (codec := MiniJson.decoder) self
           (Fixture.serving frames None) ws eq_refl eq_refl).
Defined.

(** C6.  [N] frames, each decoded and handled without an exception: the
    loop makes [N] observations (prints or callback calls), the [i]-th one
    being what the [i]-th frame alone gives, and each is made right after
    its frame is read and before the next frame is read. *)
Theorem dispatch_preserves_order {codec : JsonDecoder} self net ws :
  net (order_feed_wss self) = inr ws ->
  ws_send_fault ws = None ->
  Forall (handled self) (ws_frames ws) ->
  exists obs,
    length obs = length (ws_frames ws)
    /\ Forall2 (fun message o => dispatch_frame self message = ([o], Return tt))
               (ws_frames ws) obs
    /\ trace (connect_order_update_body self net)
       = [EvOpen (order_feed_wss self);
          EvSend (json_dumps (auth_message self));
          EvPrint (SentSubscribe (auth_message self))]
         ++ flat_map (fun mo => [EvRecv (fst mo); snd mo])
                     (combine (ws_frames ws) obs)
         ++ [EvClose].
Proof.
  intros N S F.
  destruct (handled_frames_observations _ _ F) as [obs [F2 E]].
  exists obs. split; [symmetry; exact (Forall2_length F2)|]. split; [exact F2|].
  rewrite (body_connected _ _ _ N S). simpl trace.
  pose proof (async_for_handled self (ws_frames ws) [] (ws_end ws) F) as L.
  rewrite app_nil_r in L. rewrite L. simpl.
  rewrite E. destruct (ws_end ws); simpl; now rewrite app_nil_r.
Qed.

Lemma dispatch_preserves_order_witness :
  let frames := [Fixture.traded; Fixture.heartbeat; Fixture.traded] in
  let ws := {| ws_send_fault := None; ws_frames := frames; ws_end := None |} in
  let self := Fixture.client in
  Fixture.serving frames None (order_feed_wss self) = inr ws
  /\ ws_send_fault ws = None
  /\ Forall (handled (codec := MiniJson.decoder) self) (ws_frames ws)
  /\ exists obs,
       length obs = length (ws_frames ws)
       /\ Forall2 (fun message o =>
                     dispatch_frame (codec := MiniJson.decoder) self message
                     = ([o], Return tt))
                  (ws_frames ws) obs
       /\ trace (connect_order_update_body (codec := MiniJson.decoder) self
                   (Fixture.serving frames None))
          = [EvOpen (order_feed_wss self);
             EvSend (json_dumps (auth_message self));
             EvPrint (SentSubscribe (auth_message self))]
            ++ flat_map (fun mo => [EvRecv (fst mo); snd mo])
                        (combine (ws_frames ws) obs)
            ++ [EvClose].
Proof.
  intros frames ws self.
  assert (F : Forall (handled (codec := MiniJson.decoder) self) (ws_frames ws))
    by (repeat constructor; eexists; reflexivity).
  split; [reflexivity|]. split; [reflexivity|]. split; [exact F|].
  exact (dispatch_preserves_order (codec := MiniJson.decoder) self
           (Fixture.serving frames None) ws eq_refl eq_refl F).
Defined.

(** Without that condition the count fails: of three frames the second of
    which is cut short, only the first gives an observation; the loop ends
    on the second and the third is never handled. *)
Lemma malformed_frame_cuts_observations_short :
  let frames := [Fixture.traded; Fixture.truncated; Fixture.heartbeat] in
  let t := trace (connect_order_update_body (codec := MiniJson.decoder)
                    Fixture.client (Fixture.serving frames None)) in
  length frames = 3%nat
  /\ filter is_dispatch_event t
     = [EvPrint (StatusLine (VStr "TRADED") (VStr "112111182045")
                            (VDict Fixture.traded_data))]
  /\ length (filter is_dispatch_event t) <> length frames.
Proof.
  split; [reflexivity|]. split; [reflexivity|]. discriminate.
Qed.

(** The first frame whose handling raises, whatever it raises (a decode
    error, an exception of the callback, a type error on an unexpected
    shape), ends the session with that exception: the loop does not go on
    to the frames behind it. *)
Lemma first_failure_ends_session {codec : JsonDecoder} self net ws pre bad post e :
  net (order_feed_wss self) = inr ws ->
  ws_send_fault ws = None ->
  ws_frames ws = pre ++ bad :: post ->
  Forall (handled self) pre ->
  result (dispatch_frame self bad) = Raise e ->
  result (connect_order_update_body self net) = Raise e
  /\ trace (connect_order_update_body self net)
     = [EvOpen (order_feed_wss self);
        EvSend (json_dumps (auth_message self));
        EvPrint (SentSubscribe (auth_message self))]
       ++ flat_map (turn self) pre
       ++ turn self bad ++ [EvClose].
Proof.
  intros N S Fr F B.
  rewrite (body_connected _ _ _ N S), Fr, (async_for_handled _ _ _ _ F).
  rewrite (async_for_raises self bad post (ws_end ws) e B).
  cbn [trace result fst snd]. split; [reflexivity|].
  now rewrite <- app_assoc.
Qed.

(** The stream that ends after frames that were all handled: the session
    returns [None] on a normal close and raises the fault otherwise. *)
Lemma session_follows_stream_end {codec : JsonDecoder} self net ws :
  net (order_feed_wss self) = inr ws ->
  ws_send_fault ws = None ->
  Forall (handled self) (ws_frames ws) ->
  result (connect_order_update_body self net)
  = match ws_end ws with
    | None => Return VNone
    | Some f => Raise (exn_of_fault f)
    end.
Proof.
  intros N S F. rewrite (body_connected _ _ _ N S).
  pose proof (async_for_handled self (ws_frames ws) [] (ws_end ws) F) as L.
  rewrite app_nil_r in L. rewrite L. simpl. now destruct (ws_end ws).
Qed.

(** C7.  The first frame that [json.loads] rejects, after frames that were
    handled: the session ends with [JSONDecodeError], which no transport
    fault is turned into; the frame is the last one read, the connection is
    closed, and the frames after it are never read. *)
Theorem malformed_frame_is_fatal {codec : JsonDecoder} self net ws pre bad post :
  net (order_feed_wss self) = inr ws ->
  ws_send_fault ws = None ->
  ws_frames ws = pre ++ bad :: post ->
  Forall (handled self) pre ->
  json_loads bad = None ->
  result (connect_order_update_body self net) = Raise (JSONDecodeError bad)
  /\ (forall f, exn_of_fault f <> JSONDecodeError bad)
  /\ is_transport_failure (JSONDecodeError bad) = false
  /\ trace (connect_order_update_body self net)
     = [EvOpen (order_feed_wss self);
        EvSend (json_dumps (auth_message self));
        EvPrint (SentSubscribe (auth_message self))]
       ++ flat_map (turn self) pre
       ++ [EvRecv bad; EvClose].
Proof.
  intros N S Fr F B.
  assert (D : dispatch_frame self bad = ([], Raise (JSONDecodeError bad)))
    by (unfold dispatch_frame; now rewrite B).
  destruct (first_failure_ends_session self net ws pre bad post
              (JSONDecodeError bad) N S Fr F) as [R T]; [now rewrite D|].
  split; [exact R|]. split; [now intros []|]. split; [reflexivity|].
  rewrite T. unfold turn at 2. now rewrite D.
Qed.

Lemma malformed_frame_is_fatal_witness :
  let pre := [Fixture.heartbeat] in
  let post := [Fixture.traded] in
  let ws := {| ws_send_fault := None;
               ws_frames := pre ++ Fixture.truncated :: post;
               ws_end := None |} in
  let self := Fixture.client in
  let net := Fixture.serving (pre ++ Fixture.truncated :: post) None in
  net (order_feed_wss self) = inr ws
  /\ ws_send_fault ws = None
  /\ Forall (handled (codec := MiniJson.decoder) self) pre
  /\ MiniJson.loads Fixture.truncated = None
  /\ result (connect_order_update_body (codec := MiniJson.decoder) self net)
     = Raise (JSONDecodeError Fixture.truncated)
  /\ trace (connect_order_update_body (codec := MiniJson.decoder) self net)
     = [EvOpen (order_feed_wss self);
        EvSend (json_dumps (auth_message self));
        EvPrint (SentSubscribe (auth_message self));
        EvRecv Fixture.heartbeat;
        EvPrint (UnknownMessage (VDict [("Type", VStr "heartbeat")]));
        EvRecv Fixture.truncated;
        EvClose].
Proof.
  intros pre post ws self net.
  assert (F : Forall (handled (codec := MiniJson.decoder) self) pre)
    by (repeat constructor; eexists; reflexivity).
  split; [reflexivity|]. split; [reflexivity|]. split; [exact F|].
  split; [reflexivity|].
  pose proof (malformed_frame_is_fatal (codec := MiniJson.decoder) self net ws
                pre Fixture.truncated post eq_refl eq_refl eq_refl F eq_refl)
    as [R [_ [_ T]]].
  split; [exact R | exact T].
Defined.

(** C8.  Once the connection is established it is closed before the
    coroutine ends, and closing is the last thing the coroutine does,
    whether the send fails, the stream ends normally or with a transport
    fault, the task is cancelled, a frame is malformed or the callback
    raises; between the opening and that closing the connection is neither
    closed nor opened again. *)
Theorem connection_always_released {codec : JsonDecoder} self net ws :
  net (order_feed_wss self) = inr ws ->
  exists t,
    trace (connect_order_update_body self net)
    = EvOpen (order_feed_wss self) :: t ++ [EvClose]
    /\ forallb (fun ev => negb (is_open_or_close ev)) t = true.
Proof.
  intros N. destruct (ws_send_fault ws) as [f|] eqn:S.
  - rewrite (body_send_fails _ _ _ _ N S). exists []. split; reflexivity.
  - rewrite (body_connected _ _ _ N S). simpl trace.
    eexists (_ :: _ :: _). split; [reflexivity|]. simpl.
    apply (only_async_for (fun ev => negb (is_open_or_close ev))); try reflexivity.
    intros message. apply only_dispatch_frame; reflexivity.
Qed.

Lemma connection_always_released_witness :
  let self := set_on_update Fixture.client (SFunction Fixture.order_no_of) in
  let net := Fixture.serving [Fixture.traded; Fixture.bare_alert; Fixture.traded]
                             (Some Cancellation) in
  (exists ws, net (order_feed_wss self) = inr ws)
  /\ result (connect_order_update_body (codec := MiniJson.decoder) self net)
     = Raise (KeyError "Data")
  /\ exists t,
       trace (connect_order_update_body (codec := MiniJson.decoder) self net)
       = EvOpen (order_feed_wss self) :: t ++ [EvClose]
       /\ forallb (fun ev => negb (is_open_or_close ev)) t = true.
Proof.
  intros self net.
  split; [eexists; reflexivity|]. split; [reflexivity|].
  exact (connection_always_released (codec := MiniJson.decoder) self net _ eq_refl).
Defined.

(** A session that nobody could open holds no connection to release. *)
Lemma nothing_to_release_when_refused {codec : JsonDecoder} self net f :
  net (order_feed_wss self) = inl f ->
  trace (connect_order_update_body self net) = [].
Proof. intros N. now rewrite (body_refused _ _ _ N). Qed.

(** ** The synchronous entry point *)

(** The [try] body only builds the coroutine object: nothing of the
    session runs inside it, so the [except] branch is never taken. *)
Lemma sync_entry_returns_coroutine {codec : JsonDecoder} self :
  connect_to_dhan_websocket_sync self
  = ([], Return (Some (connect_order_update self))).
Proof. reflexivity. Qed.

(** C1, on an unreachable server.  The entry point reports nothing and
    hands back the coroutine it did not start; the connection error shows
    up where the caller runs that coroutine, and reaches the caller. *)
Theorem sync_entry_lets_handshake_error_escape {codec : JsonDecoder} :
  connect_to_dhan_websocket_sync Fixture.client
  = ([], Return (Some (connect_order_update Fixture.client)))
  /\ run_until_complete Fixture.refusing (connect_order_update Fixture.client)
     = ([], Raise (TransportError "connection refused")).
Proof. split; reflexivity. Qed.

(** ** The text of the login frame *)

Lemma escape_plain_char c :
  plain_char c = true -> escape_char c = String c EmptyString.
Proof.
  unfold plain_char, escape_char. cbv zeta.
  destruct (N_of_ascii c =? 34)%N eqn:E1; [now rewrite !andb_false_r|].
  destruct (N_of_ascii c =? 92)%N eqn:E2; [now rewrite !andb_false_r|].
  rewrite !andb_true_r. intros P. rewrite P.
  apply andb_prop in P as [L _]. apply N.leb_le in L.
  repeat match goal with
         | |- context [(N_of_ascii c =? ?k)%N] =>
             destruct (N.eqb_spec (N_of_ascii c) k); [lia|]
         end.
  reflexivity.
Qed.

Lemma escape_plain s : plain s = true -> escape_chars s = s.
Proof.
  induction s as [|c s IH]; simpl; [reflexivity|].
  intros P. apply andb_prop in P as [Pc Ps].
  now rewrite (escape_plain_char _ Pc), (IH Ps).
Qed.

Lemma append_assoc (a b c : string) : ((a ++ b) ++ c = a ++ (b ++ c))%string.
Proof. induction a as [|x a IH]; simpl; [reflexivity | now rewrite IH]. Qed.

(** X18.  Credentials made of printable ASCII characters other than the
    quote and the backslash stand in the login frame letter for letter,
    between the fixed parts of the text. *)
Lemma login_frame_text self :
  plain (client_id self) = true ->
  plain (access_token self) = true ->
  json_dumps (auth_message self)
  = (json_text "{'LoginReq': {'MsgCode': 42, 'ClientId': '" ++ client_id self
       ++ json_text "', 'Token': '" ++ access_token self
       ++ json_text "'}, 'UserType': 'SELF'}")%string.
Proof.
  intros Pc Pt. unfold auth_message, py_str.
  cbn [json_dumps map join_comma]. unfold encode_str.
  rewrite (escape_plain _ Pc), (escape_plain _ Pt).
  cbn -[String.append]. 
  repeat (rewrite ?append_assoc; cbn [String.append]; f_equal).
Qed.

(** The scenarios of the specification, run on the model. *)
Example login_frame_scenario :
  json_dumps (auth_message Fixture.client)
  = json_text "{'LoginReq': {'MsgCode': 42, 'ClientId': '1100003626', 'Token': 'eyJhbGc...'}, 'UserType': 'SELF'}".
Proof. reflexivity. Qed.

Example three_frames_scenario :
  connect_order_update_body (codec := MiniJson.decoder) Fixture.client
    (Fixture.serving [Fixture.traded; Fixture.heartbeat; Fixture.bare_alert] None)
  = ([EvOpen "wss://api-order-update.dhan.co";
      EvSend (json_dumps (auth_message Fixture.client));
      EvPrint (SentSubscribe (auth_message Fixture.client));
      EvRecv Fixture.traded;
      EvPrint (StatusLine (VStr "TRADED") (VStr "112111182045")
                          (VDict Fixture.traded_data));
      EvRecv Fixture.heartbeat;
      EvPrint (UnknownMessage (VDict [("Type", VStr "heartbeat")]));
      EvRecv Fixture.bare_alert;
      EvPrint (OrderUpdateReceived (VDict []));
      EvClose],
     Return VNone).
Proof. reflexivity. Qed.

(** Shapes the server is not documented to send: a frame that is not a
    dict, and a [Data] that is [null], end the call with an exception. *)
Example non_dict_frame_raises :
  handle_order_update Fixture.client (VList [VInt 1])
  = ([], Raise (AttributeError "list")).
Proof. reflexivity. Qed.

Example null_data_raises :
  handle_order_update Fixture.client
    (VDict [("Type", VStr "order_alert"); ("Data", VNone)])
  = ([], Raise (TypeError "NoneType")).
Proof. reflexivity. Qed.

(** * Further properties of the dispatcher *)

(** ** Frames and payloads of other shapes *)

Lemma non_dict_frame self v :
  (forall d, v <> VDict d) ->
  handle_order_update self v = ([], Raise (AttributeError (type_name v))).
Proof. destruct v; try reflexivity. intros N. now elim (N kvs). Qed.

(** X1.  A frame that decodes to something other than a dict (a list, a
    string, a number, [null]) ends the session: [order_update.get] raises
    [AttributeError] before anything is printed or called, the connection
    is closed and the frames behind it are not read. *)
Theorem non_dict_frame_ends_session {codec : JsonDecoder}
    self net ws pre bad post v :
  net (order_feed_wss self) = inr ws ->
  ws_send_fault ws = None ->
  ws_frames ws = pre ++ bad :: post ->
  Forall (handled self) pre ->
  json_loads bad = Some v ->
  (forall d, v <> VDict d) ->
  result (connect_order_update_body self net)
  = Raise (AttributeError (type_name v))
  /\ trace (connect_order_update_body self net)
     = [EvOpen (order_feed_wss self);
        EvSend (json_dumps (auth_message self));
        EvPrint (SentSubscribe (auth_message self))]
       ++ flat_map (turn self) pre
       ++ [EvRecv bad; EvClose].
Proof.
  intros N S Fr F B V.
  assert (D : dispatch_frame self bad
              = ([], Raise (AttributeError (type_name v)))).
  { unfold dispatch_frame. rewrite B, bind_ret_l, (non_dict_frame _ _ V).
    reflexivity. }
  destruct (first_failure_ends_session self net ws pre bad post
              (AttributeError (type_name v)) N S Fr F) as [R T];
    [now rewrite D|].
  split; [exact R|]. rewrite T. unfold turn at 2. now rewrite D.
Qed.

Lemma non_dict_frame_ends_session_witness :
  let pre := [Fixture.heartbeat] in
  let post := [Fixture.traded] in
  let bad := "[1, 2]" in
  let ws := {| ws_send_fault := None;
               ws_frames := pre ++ bad :: post;
               ws_end := None |} in
  let self := set_on_update Fixture.client (SFunction Fixture.order_no_of) in
  let net := Fixture.serving (pre ++ bad :: post) None in
  net (order_feed_wss self) = inr ws
  /\ ws_send_fault ws = None
  /\ Forall (handled (codec := MiniJson.decoder) self) pre
  /\ MiniJson.loads bad = Some (VList [VInt 1; VInt 2])
  /\ (forall d, VList [VInt 1; VInt 2] <> VDict d)
  /\ result (connect_order_update_body (codec := MiniJson.decoder) self net)
     = Raise (AttributeError "list")
  /\ trace (connect_order_update_body (codec := MiniJson.decoder) self net)
     = [EvOpen (order_feed_wss self);
        EvSend (json_dumps (auth_message self));
        EvPrint (SentSubscribe (auth_message self));
        EvRecv Fixture.heartbeat;
        EvPrint (UnknownMessage (VDict [("Type", VStr "heartbeat")]));
        EvRecv bad;
        EvClose].
Proof.
  intros pre post bad ws self net.
  assert (F : Forall (handled (codec := MiniJson.decoder) self) pre)
    by (repeat constructor; eexists; reflexivity).
  assert (V : forall d, VList [VInt 1; VInt 2] <> VDict d) by discriminate.
  split; [reflexivity|]. split; [reflexivity|]. split; [exact F|].
  split; [reflexivity|]. split; [exact V|].
  exact (non_dict_frame_ends_session (codec := MiniJson.decoder) self net ws
           pre bad post (VList [VInt 1; VInt 2])
           eq_refl eq_refl eq_refl F eq_refl V).
Defined.

(** X2.  An order alert with no callable in the slot whose [Data] is
    [null], a boolean or a number: ["orderNo" in data] raises [TypeError];
    nothing is printed. *)
Theorem scalar_data_is_a_type_error self d data :
  is_order_alert d ->
  callable (on_update self) = false ->
  dict_lookup "Data" d = Some data ->
  is_scalar data = true ->
  handle_order_update self (VDict d) = ([], Raise (TypeError (type_name data))).
Proof.
  intros T C D Sc.
  rewrite alert_without_callback by (trivial; rewrite C; apply andb_false_r).
  unfold default_presentation, py_get.
  rewrite bind_ret_l, (dict_get_lookup _ _ _ _ D).
  destruct data; try discriminate; reflexivity.
Qed.

Lemma scalar_data_is_a_type_error_witness :
  let d := [("Type", VStr "order_alert"); ("Data", VNone)] in
  is_order_alert d
  /\ callable (on_update Fixture.client) = false
  /\ dict_lookup "Data" d = Some VNone
  /\ is_scalar VNone = true
  /\ handle_order_update Fixture.client (VDict d)
     = ([], Raise (TypeError "NoneType")).
Proof.
  intros d. repeat (split; [reflexivity|]).
  exact (scalar_data_is_a_type_error Fixture.client d VNone
           eq_refl eq_refl eq_refl eq_refl).
Defined.

(** X3.  An order alert with no callable in the slot whose [Data] is a
    string: ["orderNo" in data] is then a substring test.  A string that
    contains [orderNo] is taken for a payload with that key and subscripting
    it raises [TypeError]; any other string is printed as a generic order
    update. *)
Theorem string_data_substring_test self d s :
  is_order_alert d ->
  callable (on_update self) = false ->
  dict_lookup "Data" d = Some (VStr s) ->
  handle_order_update self (VDict d)
  = if str_contains "orderNo" s
    then ([], Raise (TypeError "str"))
    else ([EvPrint (OrderUpdateReceived (VStr s))], Return VNone).
Proof.
  intros T C D.
  rewrite alert_without_callback by (trivial; rewrite C; apply andb_false_r).
  unfold default_presentation, py_get.
  rewrite bind_ret_l, (dict_get_lookup _ _ _ _ D).
  simpl py_contains. rewrite bind_ret_l.
  destruct (str_contains "orderNo" s); reflexivity.
Qed.

Lemma string_data_substring_test_witness :
  let d := [("Type", VStr "order_alert"); ("Data", VStr "no orderNo here")] in
  is_order_alert d
  /\ callable (on_update Fixture.client) = false
  /\ dict_lookup "Data" d = Some (VStr "no orderNo here")
  /\ handle_order_update Fixture.client (VDict d) = ([], Raise (TypeError "str")).
Proof.
  intros d. repeat (split; [reflexivity|]).
  exact (string_data_substring_test Fixture.client d "no orderNo here"
           eq_refl eq_refl eq_refl).
Defined.

(** X4.  The same with a list for [Data]: ["orderNo" in data] tests whether
    the string is an element.  A list that has it raises [TypeError] at the
    subscript; any other list is printed as a generic order update. *)
Theorem list_data_element_test self d xs :
  is_order_alert d ->
  callable (on_update self) = false ->
  dict_lookup "Data" d = Some (VList xs) ->
  handle_order_update self (VDict d)
  = if existsb (fun x => eq_str x "orderNo") xs
    then ([], Raise (TypeError "list"))
    else ([EvPrint (OrderUpdateReceived (VList xs))], Return VNone).
Proof.
  intros T C D.
  rewrite alert_without_callback by (trivial; rewrite C; apply andb_false_r).
  unfold default_presentation, py_get.
  rewrite bind_ret_l, (dict_get_lookup _ _ _ _ D).
  simpl py_contains. rewrite bind_ret_l.
  destruct (existsb _ xs); reflexivity.
Qed.

Lemma list_data_element_test_witness :
  let xs := [VInt 7; VStr "status"] in
  let d := [("Type", VStr "order_alert"); ("Data", VList xs)] in
  is_order_alert d
  /\ callable (on_update Fixture.client) = false
  /\ dict_lookup "Data" d = Some (VList xs)
  /\ handle_order_update Fixture.client (VDict d)
     = ([EvPrint (OrderUpdateReceived (VList xs))], Return VNone).
Proof.
  intros xs d. repeat (split; [reflexivity|]).
  exact (list_data_element_test Fixture.client d xs eq_refl eq_refl eq_refl).
Defined.

(** ** What one call can do *)

(** X5.  With no callable in the slot, [handle_order_update] on any value
    whatever never raises [KeyError], the subscript [data["orderNo"]]
    being guarded by the [in] test; what it returns, when it returns, is
    [None]; and nothing is called. *)
Theorem outcomes_without_callback self order_update :
  callable (on_update self) = false ->
  match result (handle_order_update self order_update) with
  | Return r => r = VNone
  | Raise (KeyError _) => False
  | Raise _ => True
  end
  /\ forallb (fun ev => negb (is_invoke ev))
             (trace (handle_order_update self order_update)) = true.
Proof.
  intros C. unfold handle_order_update.
  destruct order_update as [| | | | | |d]; try (split; [exact I|reflexivity]).
  simpl py_get. rewrite bind_ret_l, C, andb_false_r.
  destruct (eq_str _ _); [|split; reflexivity].
  rewrite bind_ret_l.
  destruct (dict_get "Data" (VDict []) d) as [| | | |s|xs|data];
    try (split; [exact I|reflexivity]); simpl py_contains; rewrite bind_ret_l.
  - destruct (str_contains _ _); split; try reflexivity; exact I.
  - destruct (existsb _ _); split; try reflexivity; exact I.
  - unfold dict_contains, py_getitem.
    destruct (dict_lookup "orderNo" data); split; reflexivity.
Qed.

Lemma outcomes_without_callback_witness :
  let self := set_on_update Fixture.client (SOther true) in
  let frame := VDict [("Type", VStr "order_alert");
                      ("Data", VDict [("status", VStr "PENDING")])] in
  callable (on_update self) = false
  /\ match result (handle_order_update self frame) with
     | Return r => r = VNone
     | Raise (KeyError _) => False
     | Raise _ => True
     end
  /\ forallb (fun ev => negb (is_invoke ev))
             (trace (handle_order_update self frame)) = true.
Proof.
  intros self frame. split; [reflexivity|].
  exact (outcomes_without_callback self frame eq_refl).
Defined.

Lemma handle_shape self order_update :
  match result (handle_order_update self order_update) with
  | Return _ => length (trace (handle_order_update self order_update)) = 1%nat
  | Raise _ => (length (trace (handle_order_update self order_update)) <= 1)%nat
  end
  /\ forallb is_dispatch_event (trace (handle_order_update self order_update))
     = true.
Proof.
  unfold handle_order_update.
  destruct order_update as [| | | | | |d]; try (split; [simpl; lia|reflexivity]).
  simpl py_get. rewrite bind_ret_l.
  destruct (eq_str _ _); [|split; reflexivity].
  destruct (py_bool (on_update self) && callable (on_update self)).
  - destruct (on_update self) as [|f|t f|b];
      try (split; [simpl; lia|reflexivity]);
      simpl; destruct (f (VDict d)); split; simpl; try reflexivity; lia.
  - rewrite bind_ret_l.
    destruct (dict_get "Data" (VDict []) d) as [| | | |s|xs|data];
      try (split; [simpl; lia|reflexivity]); simpl py_contains;
      rewrite bind_ret_l.
    + destruct (str_contains _ _); split; simpl; try reflexivity; lia.
    + destruct (existsb _ _); split; simpl; try reflexivity; lia.
    + unfold dict_contains, py_getitem.
      destruct (dict_lookup "orderNo" data); split; reflexivity.
Qed.

(** X6.  Whatever the slot holds and whatever the frame is, one call of
    [handle_order_update] does at most one thing, a print or a call of the
    callback; it has done exactly one when it returns, and every event of
    it is such a print or call. *)
Theorem one_action_per_call self order_update :
  match result (handle_order_update self order_update) with
  | Return _ => length (trace (handle_order_update self order_update)) = 1%nat
  | Raise _ => (length (trace (handle_order_update self order_update)) <= 1)%nat
  end
  /\ forallb is_dispatch_event (trace (handle_order_update self order_update))
     = true.
Proof. exact (handle_shape self order_update). Qed.

(** ** Exceptions of the callback and its return value *)



Lemma async_for_ext frames stream_end (body1 body2 : string -> M unit) :
  (forall message, body1 message = body2 message) ->
  async_for frames stream_end body1 = async_for frames stream_end body2.
Proof.
  intros E. induction frames as [|message rest IH]; cbn [async_for];
    [reflexivity|]. now rewrite E, IH.
Qed.

Lemma dispatch_frame_same_faults {codec : JsonDecoder} self f g message :
  same_faults f g ->
  dispatch_frame (set_on_update self (SFunction f)) message
  = dispatch_frame (set_on_update self (SFunction g)) message.
Proof.
  intros Sf. unfold dispatch_frame.
  destruct (json_loads message) as [v|]; [|reflexivity].
  rewrite !bind_ret_l. unfold handle_order_update.
  destruct v as [| | | | | |d]; try reflexivity.
  simpl py_get. rewrite !bind_ret_l.
  destruct (eq_str _ _); [|reflexivity].
  simpl. specialize (Sf (VDict d)).
  destruct (f (VDict d)), (g (VDict d)); simpl; try contradiction;
    [reflexivity | now subst].
Qed.

Lemma dispatch_frame_same_faults_object {codec : JsonDecoder}
    self truth f g message :
  same_faults f g ->
  dispatch_frame (set_on_update self (SCallable truth f)) message
  = dispatch_frame (set_on_update self (SCallable truth g)) message.
Proof.
  intros Sf. unfold dispatch_frame.
  destruct (json_loads message) as [v|]; [|reflexivity].
  rewrite !bind_ret_l. unfold handle_order_update.
  destruct v as [| | | | | |d]; try reflexivity.
  simpl py_get. rewrite !bind_ret_l.
  destruct (eq_str _ _); [|reflexivity].
  destruct truth; [|reflexivity].
  simpl. specialize (Sf (VDict d)).
  destruct (f (VDict d)), (g (VDict d)); simpl; try contradiction;
    [reflexivity | now subst].
Qed.

(** X8.  The loop throws away what [handle_order_update] returns.  Take two
    callbacks of the same kind and the same truth value, two functions or
    two callable objects, each depending on the frame alone: if they raise
    on the same frames, with the same exceptions, they give the same
    session, event for event and with the same end, whatever they
    return. *)
Theorem callback_return_value_is_unused {codec : JsonDecoder}
    self net truth f g :
  same_faults f g ->
  connect_order_update_body (set_on_update self (SFunction f)) net
  = connect_order_update_body (set_on_update self (SFunction g)) net
  /\ connect_order_update_body (set_on_update self (SCallable truth f)) net
     = connect_order_update_body (set_on_update self (SCallable truth g)) net.
Proof.
  intros Sf. unfold connect_order_update_body, async_with_connect.
  cbn [order_feed_wss set_on_update].
  destruct (net (order_feed_wss self)) as [flt|ws]; [split; reflexivity|].
  rewrite (async_for_ext _ _ _ _
             (fun message => dispatch_frame_same_faults self f g message Sf)).
  rewrite (async_for_ext _ _ _ _
             (fun message =>
                dispatch_frame_same_faults_object self truth f g message Sf)).
  split; reflexivity.
Qed.

Lemma callback_return_value_is_unused_witness :
  let f := fun _ : value => Return VNone in
  let g := fun frame : value => Return frame in
  let net := Fixture.serving [Fixture.traded; Fixture.heartbeat] None in
  same_faults f g
  /\ connect_order_update_body (codec := MiniJson.decoder)
       (set_on_update Fixture.client (SFunction f)) net
     = connect_order_update_body (codec := MiniJson.decoder)
         (set_on_update Fixture.client (SFunction g)) net
  /\ connect_order_update_body (codec := MiniJson.decoder)
       (set_on_update Fixture.client (SCallable false f)) net
     = connect_order_update_body (codec := MiniJson.decoder)
         (set_on_update Fixture.client (SCallable false g)) net.
Proof.
  intros f g net.
  assert (Sf : same_faults f g) by (intros v; exact I).
  split; [exact Sf|].
  exact (callback_return_value_is_unused (codec := MiniJson.decoder)
           Fixture.client net false f g Sf).
Defined.

(** ** How a session ends *)

(** X9.  When every frame was handled, the session ends as the stream
    ends: it returns [None] after a normal close and raises the transport
    error, or the cancellation, otherwise.  It does not connect again. *)
Theorem session_ends_as_stream_ends {codec : JsonDecoder} self net ws :
  net (order_feed_wss self) = inr ws ->
  ws_send_fault ws = None ->
  Forall (handled self) (ws_frames ws) ->
  result (connect_order_update_body self net)
  = match ws_end ws with
    | None => Return VNone
    | Some f => Raise (exn_of_fault f)
    end
  /\ length (filter is_open (trace (connect_order_update_body self net))) = 1%nat.
Proof.
  intros N S F. split; [exact (session_follows_stream_end _ _ _ N S F)|].
  rewrite (body_connected _ _ _ N S). cbn [trace fst filter is_open].
  rewrite filter_app. cbn [filter is_open]. rewrite app_nil_r.
  assert (O : only (fun ev => negb (is_open ev))
                (trace (async_for (ws_frames ws) (ws_end ws) (dispatch_frame self)))).
  { apply only_async_for; try reflexivity.
    intros message. apply only_dispatch_frame; reflexivity. }
  unfold only in O. simpl. f_equal.
  induction (trace (async_for (ws_frames ws) (ws_end ws) (dispatch_frame self)))
    as [|ev t IH]; [reflexivity|].
  simpl in O. apply andb_prop in O as [Oe Ot]. simpl.
  destruct (is_open ev); [discriminate|]. exact (IH Ot).
Qed.

Lemma session_ends_as_stream_ends_witness :
  let frames := [Fixture.traded; Fixture.heartbeat] in
  let ws := {| ws_send_fault := None;
               ws_frames := frames;
               ws_end := Some (NetworkFault "no close frame received") |} in
  let self := Fixture.client in
  let net := Fixture.serving frames (Some (NetworkFault "no close frame received")) in
  net (order_feed_wss self) = inr ws
  /\ ws_send_fault ws = None
  /\ Forall (handled (codec := MiniJson.decoder) self) (ws_frames ws)
  /\ result (connect_order_update_body (codec := MiniJson.decoder) self net)
     = Raise (TransportError "no close frame received")
  /\ length (filter is_open
               (trace (connect_order_update_body (codec := MiniJson.decoder)
                         self net))) = 1%nat.
Proof.
  intros frames ws self net.
  assert (F : Forall (handled (codec := MiniJson.decoder) self) (ws_frames ws))
    by (repeat constructor; eexists; reflexivity).
  split; [reflexivity|]. split; [reflexivity|]. split; [exact F|].
  exact (session_ends_as_stream_ends (codec := MiniJson.decoder) self net ws
           eq_refl eq_refl F).
Defined.

(** X10.  When the connection cannot be established the coroutine raises
    that error and has done nothing: no frame sent, nothing printed, no
    connection to close. *)
Theorem refused_connection_raises {codec : JsonDecoder} self net f :
  net (order_feed_wss self) = inl f ->
  connect_order_update_body self net = ([], Raise (exn_of_fault f)).
Proof. exact (body_refused self net f). Qed.

Lemma refused_connection_raises_witness :
  Fixture.refusing (order_feed_wss Fixture.client)
  = inl (NetworkFault "connection refused")
  /\ connect_order_update_body (codec := MiniJson.decoder) Fixture.client
       Fixture.refusing
     = ([], Raise (TransportError "connection refused")).
Proof.
  split; [reflexivity|].
  exact (refused_connection_raises (codec := MiniJson.decoder) Fixture.client
           Fixture.refusing (NetworkFault "connection refused") eq_refl).
Defined.

(** X11.  When the send of the login frame fails, the connection is closed
    and the error raised; the "sent" line is not printed and no frame is
    read, whatever the server had to deliver. *)
Theorem failed_send_closes_and_raises {codec : JsonDecoder} self net ws f :
  net (order_feed_wss self) = inr ws ->
  ws_send_fault ws = Some f ->
  connect_order_update_body self net
  = ([EvOpen (order_feed_wss self); EvClose], Raise (exn_of_fault f)).
Proof. exact (body_send_fails self net ws f). Qed.

Lemma failed_send_closes_and_raises_witness :
  let ws := {| ws_send_fault := Some Cancellation;
               ws_frames := [Fixture.traded];
               ws_end := None |} in
  let net := fun _ : string => inr ws : fault + websocket in
  net (order_feed_wss Fixture.client) = inr ws
  /\ ws_send_fault ws = Some Cancellation
  /\ connect_order_update_body (codec := MiniJson.decoder) Fixture.client net
     = ([EvOpen "wss://api-order-update.dhan.co"; EvClose], Raise CancelledError).
Proof.
  intros ws net. split; [reflexivity|]. split; [reflexivity|].
  exact (failed_send_closes_and_raises (codec := MiniJson.decoder)
           Fixture.client net ws Cancellation eq_refl eq_refl).
Defined.

(** ** What a session does on the connection, whatever happens *)

Lemma filter_none p t :
  only (fun ev => negb (p ev)) t -> filter p t = [].
Proof.
  unfold only. induction t as [|ev t IH]; simpl; [reflexivity|].
  intros O. apply andb_prop in O as [Oe Ot].
  destruct (p ev); [discriminate | exact (IH Ot)].
Qed.

Lemma received_none t :
  only (fun ev => negb (is_recv ev)) t -> received t = [].
Proof.
  unfold only, received. induction t as [|ev t IH]; simpl; [reflexivity|].
  intros O. apply andb_prop in O as [Oe Ot]. rewrite (IH Ot).
  destruct ev; try reflexivity. discriminate.
Qed.

Lemma received_app t1 t2 : received (t1 ++ t2) = received t1 ++ received t2.
Proof. apply flat_map_app. Qed.

Lemma only_weaken (p q : event -> bool) t :
  (forall ev, p ev = true -> q ev = true) -> only p t -> only q t.
Proof.
  unfold only. intros I. induction t as [|ev t IH]; simpl; [reflexivity|].
  intros O. apply andb_prop in O as [Oe Ot]. now rewrite (I _ Oe), (IH Ot).
Qed.

Lemma dispatch_frame_events {codec : JsonDecoder} self message :
  only is_dispatch_event (trace (dispatch_frame self message)).
Proof.
  unfold dispatch_frame.
  apply only_bind; [now destruct (json_loads message)|]. intros data.
  apply only_bind; [apply handle_shape | reflexivity].
Qed.

Lemma loop_trace_step {codec : JsonDecoder} self message rest stream_end :
  trace (async_for (message :: rest) stream_end (dispatch_frame self))
  = turn self message
    ++ match result (dispatch_frame self message) with
       | Return _ => trace (async_for rest stream_end (dispatch_frame self))
       | Raise _ => []
       end.
Proof. cbn [async_for]. rewrite !trace_bind. reflexivity. Qed.

Lemma received_loop {codec : JsonDecoder} self frames stream_end :
  exists k,
    received (trace (async_for frames stream_end (dispatch_frame self)))
    = firstn k frames.
Proof.
  induction frames as [|message rest [k IH]].
  - exists 0%nat. simpl. now destruct stream_end.
  - rewrite loop_trace_step, received_app. unfold turn.
    assert (R : received (trace (dispatch_frame self message)) = []).
    { apply received_none.
      apply (only_weaken is_dispatch_event); [|apply dispatch_frame_events].
      intros [] E; try reflexivity; discriminate. }
    cbn [received flat_map]. fold (received (trace (dispatch_frame self message))).
    rewrite R. destruct (result (dispatch_frame self message)).
    + exists (S k). simpl. now rewrite <- IH.
    + exists 1%nat. reflexivity.
Qed.

(** X12.  The frames a session reads are an initial part of what the
    server delivers, in the same order: no frame is skipped, read twice or
    read out of turn, also in a session that ends with an error. *)
Theorem frames_are_read_in_order {codec : JsonDecoder} self net ws :
  net (order_feed_wss self) = inr ws ->
  exists k,
    received (trace (connect_order_update_body self net))
    = firstn k (ws_frames ws).
Proof.
  intros N. destruct (ws_send_fault ws) as [f|] eqn:S.
  - rewrite (body_send_fails _ _ _ _ N S). now exists 0%nat.
  - rewrite (body_connected _ _ _ N S). cbn [trace fst].
    destruct (received_loop self (ws_frames ws) (ws_end ws)) as [k E].
    exists k. cbn [received flat_map app].
    fold (received (trace (async_for (ws_frames ws) (ws_end ws) (dispatch_frame self))
                    ++ [EvClose])).
    now rewrite received_app, E, app_nil_r.
Qed.

Lemma frames_are_read_in_order_witness :
  let frames := [Fixture.traded; Fixture.truncated; Fixture.heartbeat] in
  let ws := {| ws_send_fault := None; ws_frames := frames; ws_end := None |} in
  let net := Fixture.serving frames None in
  net (order_feed_wss Fixture.client) = inr ws
  /\ received (trace (connect_order_update_body (codec := MiniJson.decoder)
                        Fixture.client net))
     = [Fixture.traded; Fixture.truncated]
  /\ exists k,
       received (trace (connect_order_update_body (codec := MiniJson.decoder)
                          Fixture.client net))
       = firstn k (ws_frames ws).
Proof.
  intros frames ws net. split; [reflexivity|]. split; [reflexivity|].
  exact (frames_are_read_in_order (codec := MiniJson.decoder) Fixture.client
           net ws eq_refl).
Defined.

Lemma loop_is_quiet {codec : JsonDecoder} (p : event -> bool) self frames stream_end :
  (forall text, p (EvRecv text) = true) ->
  (forall ev, is_dispatch_event ev = true -> p ev = true) ->
  only p (trace (async_for frames stream_end (dispatch_frame self))).
Proof.
  intros Pr Pd. apply only_async_for; [exact Pr|]. intros message.
  apply (only_weaken is_dispatch_event); [exact Pd|].
  apply dispatch_frame_events.
Qed.

(** X13.  On every network and with every callback, a session opens at
    most one connection, closes each connection it opened, and sends at
    most one frame: there is no reconnection and no second login. *)
Theorem at_most_one_connection {codec : JsonDecoder} self net :
  let t := trace (connect_order_update_body self net) in
  length (filter is_open t) = length (filter is_close t)
  /\ (length (filter is_open t) <= 1)%nat
  /\ (length (filter is_send t) <= 1)%nat.
Proof.
  destruct (net (order_feed_wss self)) as [f|ws] eqn:N.
  - rewrite (body_refused _ _ _ N). simpl. lia.
  - destruct (ws_send_fault ws) as [f|] eqn:S.
    + rewrite (body_send_fails _ _ _ _ N S). simpl. lia.
    + rewrite (body_connected _ _ _ N S). cbn [trace fst].
      set (loop := trace (async_for (ws_frames ws) (ws_end ws) (dispatch_frame self))).
      assert (O : filter is_open loop = []).
      { apply filter_none, loop_is_quiet; [reflexivity|].
        intros [] E; try reflexivity; discriminate. }
      assert (C : filter is_close loop = []).
      { apply filter_none, loop_is_quiet; [reflexivity|].
        intros [] E; try reflexivity; discriminate. }
      assert (Sd : filter is_send loop = []).
      { apply filter_none, loop_is_quiet; [reflexivity|].
        intros [] E; try reflexivity; discriminate. }
      cbn [filter is_open is_close is_send].
      rewrite !filter_app, O, C, Sd. simpl. lia.
Qed.

(** ** What the callback is given, and what is never printed *)

Lemma lookup_of_tag d :
  eq_str (dict_get "Type" VNone d) "order_alert" = true -> is_order_alert d.
Proof.
  unfold is_order_alert, dict_get. intros E. apply eq_str_true in E.
  destruct (dict_lookup "Type" d); [now subst | discriminate].
Qed.

Lemma invoke_in_handle self order_update arg :
  In (EvInvoke arg) (trace (handle_order_update self order_update)) ->
  arg = order_update /\ exists d, order_update = VDict d /\ is_order_alert d.
Proof.
  unfold handle_order_update.
  destruct order_update as [| | | | | |d]; try (simpl; intros []).
  simpl py_get. rewrite bind_ret_l.
  destruct (eq_str _ _) eqn:T.
  - apply lookup_of_tag in T.
    destruct (py_bool (on_update self) && callable (on_update self)) eqn:G.
    + destruct (on_update self) as [|f|t f|b]; [intros [] | | | intros []];
        simpl; destruct (f (VDict d)); simpl; intros [E|[]];
        injection E as <-; (split; [reflexivity | now exists d]).
    + fold (default_presentation (VDict d)). intros I.
      pose proof (default_presentation_never_invokes (VDict d)) as Q.
      rewrite forallb_forall in Q. specialize (Q _ I). discriminate.
  - simpl. intros [E|[]]. discriminate.
Qed.

Lemma in_loop {codec : JsonDecoder} self frames stream_end ev :
  In ev (trace (async_for frames stream_end (dispatch_frame self))) ->
  exists message, In message frames /\ In ev (turn self message).
Proof.
  induction frames as [|message rest IH].
  - simpl. now destruct stream_end.
  - rewrite loop_trace_step. intros I. apply in_app_or in I as [I|I].
    + exists message. split; [now left | exact I].
    + destruct (result (dispatch_frame self message)); [|destruct I].
      destruct (IH I) as [m [Im Ie]]. exists m. split; [now right | exact Ie].
Qed.

(** X14.  Every value the callback is called with during a session is the
    decoding of a frame the server delivered, and is a dict whose [Type] is
    ["order_alert"]: the callback never sees a frame of another type, a
    changed frame, or anything that was not received. *)
Theorem callback_sees_only_order_alerts {codec : JsonDecoder} self net ws arg :
  net (order_feed_wss self) = inr ws ->
  In (EvInvoke arg) (trace (connect_order_update_body self net)) ->
  exists message d,
    In message (ws_frames ws)
    /\ json_loads message = Some (VDict d)
    /\ arg = VDict d
    /\ is_order_alert d.
Proof.
  intros N I. destruct (ws_send_fault ws) as [f|] eqn:S.
  - rewrite (body_send_fails _ _ _ _ N S) in I. simpl in I.
    destruct I as [E|[E|[]]]; discriminate.
  - rewrite (body_connected _ _ _ N S) in I. cbn [trace fst] in I.
    destruct I as [E|[E|[E|I]]]; try discriminate.
    apply in_app_or in I as [I|[E|[]]]; [|discriminate].
    destruct (in_loop _ _ _ _ I) as [message [Im [E|It]]]; [discriminate|].
    unfold dispatch_frame in It.
    destruct (json_loads message) as [v|] eqn:L; [|destruct It].
    rewrite bind_ret_l, trace_bind in It.
    apply in_app_or in It as [It|It].
    + destruct (invoke_in_handle _ _ _ It) as [-> [d [-> T]]].
      now exists message, d.
    + destruct (result (handle_order_update self v)); destruct It.
Qed.

Lemma callback_sees_only_order_alerts_witness :
  let frames := [Fixture.heartbeat; Fixture.traded] in
  let ws := {| ws_send_fault := None; ws_frames := frames; ws_end := None |} in
  let self := set_on_update Fixture.client (SFunction Fixture.order_no_of) in
  let net := Fixture.serving frames None in
  net (order_feed_wss self) = inr ws
  /\ In (EvInvoke (VDict Fixture.traded_frame))
        (trace (connect_order_update_body (codec := MiniJson.decoder) self net))
  /\ exists message d,
       In message (ws_frames ws)
       /\ MiniJson.loads message = Some (VDict d)
       /\ VDict Fixture.traded_frame = VDict d
       /\ is_order_alert d.
Proof.
  intros frames ws self net.
  assert (I : In (EvInvoke (VDict Fixture.traded_frame))
                (trace (connect_order_update_body (codec := MiniJson.decoder)
                          self net)))
    by (do 6 right; left; reflexivity).
  split; [reflexivity|]. split; [exact I|].
  exact (callback_sees_only_order_alerts (codec := MiniJson.decoder) self net ws
           (VDict Fixture.traded_frame) eq_refl I).
Defined.

(** X15.  The line "Error in connect_to_dhan_websocket" is never printed:
    not by [connect_to_dhan_websocket_sync], whose [try] body cannot raise,
    and not by the coroutine it returns when that is run, on any network
    and with any callback. *)
Theorem error_report_is_never_printed {codec : JsonDecoder} self net :
  connect_to_dhan_websocket_sync self
  = ([], Return (Some (connect_order_update self)))
  /\ forallb (fun ev => negb (is_error_report ev))
             (trace (run_until_complete net (connect_order_update self)))
     = true.
Proof.
  split; [reflexivity|].
  cbn [run_until_complete connect_order_update].
  destruct (net (order_feed_wss self)) as [f|ws] eqn:N.
  - now rewrite (body_refused _ _ _ N).
  - destruct (ws_send_fault ws) as [f|] eqn:S.
    + now rewrite (body_send_fails _ _ _ _ N S).
    + rewrite (body_connected _ _ _ N S). cbn [trace fst forallb].
      rewrite forallb_app. cbn. rewrite andb_true_r.
      apply (loop_is_quiet (fun ev => negb (is_error_report ev)));
        [reflexivity|].
      intros [| | | |[]|] E; try reflexivity; discriminate.
Qed.

(** ** Frames of the documented shape *)



(** ** The login frame on the wire *)

Lemma login_frame_shape self :
  json_dumps (auth_message self)
  = (json_text "{'LoginReq': {'MsgCode': 42, 'ClientId': '"
       ++ escape_chars (client_id self)
       ++ json_text "', 'Token': '" ++ escape_chars (access_token self)
       ++ json_text "'}, 'UserType': 'SELF'}")%string.
Proof.
  unfold auth_message, py_str.
  cbn [json_dumps map join_comma]. unfold encode_str.
  cbn -[String.append escape_chars].
  change (escape_chars "LoginReq") with "LoginReq".
  change (escape_chars "MsgCode") with "MsgCode".
  change (escape_chars "ClientId") with "ClientId".
  change (escape_chars "Token") with "Token".
  change (escape_chars "UserType") with "UserType".
  change (escape_chars "SELF") with "SELF".
  repeat (rewrite ?append_assoc; cbn [String.append]; f_equal).
Qed.

Lemma printable_app a b :
  printable (a ++ b)%string = printable a && printable b.
Proof.
  induction a as [|c a IH]; simpl; [reflexivity|].
  now rewrite IH, andb_assoc.
Qed.

Lemma printable_escape_char c : printable (escape_char c) = true.
Proof. destruct c as [[] [] [] [] [] [] [] []]; reflexivity. Qed.

Lemma printable_escape_chars s : printable (escape_chars s) = true.
Proof.
  induction s as [|c s IH]; simpl; [reflexivity|].
  now rewrite printable_app, printable_escape_char, IH.
Qed.

(** X17.  For a client identifier and an access token made of code points
    below 256, quotes, backslashes, control characters and the characters
    from 128 to 255 included, the login frame that is sent consists of
    printable ASCII characters only. *)
Theorem login_frame_is_printable_ascii {codec : JsonDecoder} self net ws :
  net (order_feed_wss self) = inr ws ->
  ws_send_fault ws = None ->
  exists text rest,
    trace (connect_order_update_body self net)
    = EvOpen (order_feed_wss self) :: EvSend text :: rest
    /\ printable text = true.
Proof.
  intros N S. rewrite (body_connected _ _ _ N S).
  eexists. eexists. split; [reflexivity|].
  rewrite login_frame_shape, !printable_app, !printable_escape_chars.
  reflexivity.
Qed.

Lemma login_frame_is_printable_ascii_witness :
  let context := {| get_client_id := json_text "11'0\0003626";
                    get_access_token := String (ascii_of_N 233) "t" |} in
  let ws := {| ws_send_fault := None; ws_frames := []; ws_end := None |} in
  let net := Fixture.serving [] None in
  net (order_feed_wss (init context)) = inr ws
  /\ ws_send_fault ws = None
  /\ json_dumps (auth_message (init context))
     = json_text "{'LoginReq': {'MsgCode': 42, 'ClientId': '11\'0\\0003626', 'Token': '\u00e9t'}, 'UserType': 'SELF'}"
  /\ exists text rest,
       trace (connect_order_update_body (codec := MiniJson.decoder)
                (init context) net)
       = EvOpen (order_feed_wss (init context)) :: EvSend text :: rest
       /\ printable text = true.
Proof.
  intros context ws net.
  split; [reflexivity|]. split; [reflexivity|]. split; [reflexivity|].
  exact (login_frame_is_printable_ascii (codec := MiniJson.decoder)
           (init context) net ws eq_refl eq_refl).
Defined.

Lemma login_frame_text_witness :
  plain (client_id Fixture.client) = true
  /\ plain (access_token Fixture.client) = true
  /\ json_dumps (auth_message Fixture.client)
     = json_text "{'LoginReq': {'MsgCode': 42, 'ClientId': '1100003626', 'Token': 'eyJhbGc...'}, 'UserType': 'SELF'}".
Proof.
  split; [reflexivity|]. split; [reflexivity|].
  exact (login_frame_text Fixture.client eq_refl eq_refl).
Defined.

(** X19.  Right after the login frame went out, as the third thing it
    does and before any frame is read, the session prints the login
    dictionary as it is, access token included. *)
Theorem access_token_is_printed {codec : JsonDecoder} self net ws :
  net (order_feed_wss self) = inr ws ->
  ws_send_fault ws = None ->
  exists text rest,
    trace (connect_order_update_body self net)
    = EvOpen (order_feed_wss self)
        :: EvSend text
        :: EvPrint (SentSubscribe
                      (VDict [("LoginReq",
                               VDict [("MsgCode", VInt 42);
                                      ("ClientId", VStr (client_id self));
                                      ("Token", VStr (access_token self))]);
                              ("UserType", VStr "SELF")]))
        :: rest.
Proof.
  intros N S. rewrite (body_connected _ _ _ N S).
  eexists. eexists. reflexivity.
Qed.

Lemma access_token_is_printed_witness :
  let ws := {| ws_send_fault := None; ws_frames := [Fixture.traded]; ws_end := None |} in
  let net := Fixture.serving [Fixture.traded] None in
  net (order_feed_wss Fixture.client) = inr ws
  /\ ws_send_fault ws = None
  /\ exists text rest,
       trace (connect_order_update_body (codec := MiniJson.decoder)
                Fixture.client net)
       = EvOpen (order_feed_wss Fixture.client)
           :: EvSend text
           :: EvPrint (SentSubscribe
                         (VDict [("LoginReq",
                                  VDict [("MsgCode", VInt 42);
                                         ("ClientId", VStr "1100003626");
                                         ("Token", VStr "eyJhbGc...")]);
                                 ("UserType", VStr "SELF")]))
           :: rest.
Proof.
  intros ws net. split; [reflexivity|]. split; [reflexivity|].
  exact (access_token_is_printed (codec := MiniJson.decoder) Fixture.client
           net ws eq_refl eq_refl).
Defined.

(** ** From the constructor to the session *)

(** X20.  An instance made by the constructor, with whatever is assigned
    to [on_update] afterwards, connects to the one fixed endpoint and logs
    in with the two values the context object gave at construction. *)
Theorem constructed_client_logs_in_with_context {codec : JsonDecoder}
    dhan_context s net ws :
  net "wss://api-order-update.dhan.co" = inr ws ->
  ws_send_fault ws = None ->
  let login :=
    json_dumps (VDict [("LoginReq",
                        VDict [("MsgCode", VInt 42);
                               ("ClientId", VStr (get_client_id dhan_context));
                               ("Token", VStr (get_access_token dhan_context))]);
                       ("UserType", VStr "SELF")]) in
  exists rest rest',
    trace (connect_order_update_body (init dhan_context) net)
    = EvOpen "wss://api-order-update.dhan.co" :: EvSend login :: rest
    /\ trace (connect_order_update_body (set_on_update (init dhan_context) s) net)
       = EvOpen "wss://api-order-update.dhan.co" :: EvSend login :: rest'.
Proof.
  intros N S login.
  rewrite (body_connected (set_on_update (init dhan_context) s) net ws N S).
  rewrite (body_connected (init dhan_context) net ws N S).
  eexists. eexists. split; reflexivity.
Qed.

Lemma constructed_client_logs_in_with_context_witness :
  let ws := {| ws_send_fault := None; ws_frames := [Fixture.traded]; ws_end := None |} in
  let net := Fixture.serving [Fixture.traded] None in
  let login :=
    json_dumps (VDict [("LoginReq",
                        VDict [("MsgCode", VInt 42);
                               ("ClientId", VStr "1100003626");
                               ("Token", VStr "eyJhbGc...")]);
                       ("UserType", VStr "SELF")]) in
  net "wss://api-order-update.dhan.co" = inr ws
  /\ ws_send_fault ws = None
  /\ exists rest rest',
       trace (connect_order_update_body (codec := MiniJson.decoder)
                (init Fixture.context) net)
       = EvOpen "wss://api-order-update.dhan.co" :: EvSend login :: rest
       /\ trace (connect_order_update_body (codec := MiniJson.decoder)
                   (set_on_update (init Fixture.context)
                                  (SFunction Fixture.order_no_of)) net)
          = EvOpen "wss://api-order-update.dhan.co" :: EvSend login :: rest'.
Proof.
  intros ws net login. split; [reflexivity|]. split; [reflexivity|].
  exact (constructed_client_logs_in_with_context (codec := MiniJson.decoder)
           Fixture.context (SFunction Fixture.order_no_of) net ws
           eq_refl eq_refl).
Defined.
